(** * HRMS Lite: a shallow embedding of [backend/main.py]

    The FastAPI handlers of [backend/main.py] are embedded as functions over
    an explicit model of the SQLite store.  The two tables are lists of rows in
    rowid order, every SQL statement of the source is one definition, and a
    handler is a computation over a connection that distinguishes the durable
    store from the working copy of the open transaction.

    A string is Python text in the form SQLite stores and compares it: the
    bytes of its UTF-8 encoding.  Python's [len], [str.strip] and [str.lower]
    work on characters, so they are defined on the encoding: [len] counts the
    bytes that begin a character, [strip] removes the encodings of the
    white-space characters of [str.isspace], and [str_lower] lower-cases the
    letters [A-Z] and hands the characters outside ASCII to the case tables of
    the Python runtime.  Those tables and the e-mail validator behind
    [EmailStr] are not part of the repository: they are the two fields of the
    class [Runtime], and everything is proved for every runtime.  SQLite's
    [LOWER] changes the letters [A-Z] only.  [uuid.uuid4()], [datetime.now()]
    and [date.today()] are inputs of the handlers that call them. *)

From Stdlib Require Import String Ascii NArith Lia.
From stdpp Require Import base decidable option list sorting strings.

(** ** Strings: [len], [strip], [lower], comparison *)

Definition byte_is (c : ascii) (n : N) : bool := (N_of_ascii c =? n)%N.

Definition byte_in (c : ascii) (lo hi : N) : bool :=
  ((lo <=? N_of_ascii c) && (N_of_ascii c <=? hi))%N.

(** Python's [len(v)]: the number of characters, that is of bytes that are
    not continuation bytes ([0x80]-[0xBF]) of the encoding. *)
Fixpoint len (s : string) : nat :=
  match s with
  | EmptyString => 0
  | String c s' => (if byte_in c 128 191 then 0 else 1) + len s'
  end.

(** What follows the first character of [s] when that character is white
    space for [str.isspace]: U+0009-U+000D, U+001C-U+0020, U+0085, U+00A0,
    U+1680, U+2000-U+200A, U+2028, U+2029, U+202F, U+205F or U+3000. *)
Definition space_prefix (s : string) : option string :=
  match s with
  | String c r =>
      if byte_in c 9 13 || byte_in c 28 32 then Some r else
      match r with
      | String d r' =>
          if byte_is c 194 && (byte_is d 133 || byte_is d 160) then Some r' else
          match r' with
          | String e r'' =>
              if byte_is c 225 && byte_is d 154 && byte_is e 128
                 || byte_is c 226 && byte_is d 128
                    && (byte_in e 128 138 || byte_in e 168 169 || byte_is e 175)
                 || byte_is c 226 && byte_is d 129 && byte_is e 159
                 || byte_is c 227 && byte_is d 128 && byte_is e 128
              then Some r'' else None
          | EmptyString => None
          end
      | EmptyString => None
      end
  | EmptyString => None
  end.

Fixpoint lstrip_fuel (n : nat) (s : string) : string :=
  match n with
  | O => s
  | S n' =>
      match space_prefix s with
      | Some r => lstrip_fuel n' r
      | None => s
      end
  end.

(** [v.lstrip()]: white-space characters are removed from the front until
    there is none; no more than [String.length s] can be. *)
Definition lstrip (s : string) : string := lstrip_fuel (String.length s) s.

(** [s] is made of white-space characters only. *)
Definition all_space (s : string) : bool :=
  match lstrip s with EmptyString => true | String _ _ => false end.

(** [v.rstrip()]: the longest end of [s] made of white-space characters is
    removed. *)
Fixpoint rstrip (s : string) : string :=
  match s with
  | EmptyString => EmptyString
  | String c s' => if all_space s then EmptyString else String c (rstrip s')
  end.

(** [v.strip()] *)
Definition strip (s : string) : string := rstrip (lstrip s).

(** [s] does not begin with a white-space character. *)
Definition no_leading_space (s : string) : Prop := space_prefix s = None.

(** [s] does not end with a white-space character. *)
Definition no_trailing_space (s : string) : Prop :=
  ∀ p q, s = p +:+ q → q ≠ "" → all_space q = false.

Definition lower_char (c : ascii) : ascii :=
  let n := N_of_ascii c in
  if ((65 <=? n) && (n <=? 90))%N then ascii_of_N (n + 32) else c.

(** [LOWER(s)] in SQLite, and what [s.lower()] does to the letters [A-Z] in
    Python: every byte [A-Z] becomes [a-z], every other byte stays. *)
Fixpoint lower (s : string) : string :=
  match s with
  | EmptyString => EmptyString
  | String c s' => String (lower_char c) (lower s')
  end.

(** SQLite compares TEXT values with the BINARY collation: byte by byte, a
    proper prefix first.  [str_le a b] is [a <= b] in that order. *)
Definition str_le (a b : string) : Prop := String.leb a b = true.

#[global] Instance str_le_dec a b : Decision (str_le a b).
Proof. unfold str_le. apply _. Defined.

(** ** What the handlers take from the Python runtime *)

(** [unicode_lower] is what [str.lower] does to the characters outside ASCII
    (it may leave the others alone), by the case tables of the runtime.
    [validate_email] is the validator of [EmailStr]: it refuses an address or
    returns it normalised. *)
Class Runtime := {
  unicode_lower : string → string;
  validate_email : string → option string
}.

(** [v.lower()] in Python. *)
Definition str_lower `{!Runtime} (v : string) : string := lower (unicode_lower v).

(** ** [uuid.uuid4()] and [str(uuid)] *)

Definition hex_digit (d : N) : ascii :=
  match d with
  | 0 => "0" | 1 => "1" | 2 => "2" | 3 => "3" | 4 => "4" | 5 => "5"
  | 6 => "6" | 7 => "7" | 8 => "8" | 9 => "9" | 10 => "a" | 11 => "b"
  | 12 => "c" | 13 => "d" | 14 => "e" | _ => "f"
  end%N%char.

(** ['%0nx' % x], the [n] low hexadecimal digits of [x]. *)
Fixpoint hex_digits (n : nat) (x : N) (acc : string) : string :=
  match n with
  | O => acc
  | S n' => hex_digits n' (N.shiftr x 4) (String (hex_digit (N.land x 15)) acc)
  end.

(** [str(u)] for a [uuid.UUID] whose [int] is [u]:
    ['%s-%s-%s-%s-%s' % (hex[:8], hex[8:12], hex[12:16], hex[16:20], hex[20:])]. *)
Definition str_UUID (u : N) : string :=
  let hex := hex_digits 32 u "" in
  substring 0 8 hex +:+ "-" +:+ substring 8 4 hex +:+ "-" +:+
  substring 12 4 hex +:+ "-" +:+ substring 16 4 hex +:+ "-" +:+
  substring 20 12 hex.

(** ** Pydantic models *)

(** [Literal["Present", "Absent"]] *)
Inductive Status := Present | Absent.

#[global] Instance Status_eq_dec : EqDecision Status.
Proof. solve_decision. Defined.

Module EmployeeCreate.
Record t := mk {
  employee_id : string;
  full_name : string;
  email : string;
  department : string
}.
End EmployeeCreate.

Module Employee.
Record t := mk {
  id : string;
  employee_id : string;
  full_name : string;
  email : string;
  department : string;
  created_at : string
}.
End Employee.

Module AttendanceCreate.
Record t := mk {
  employee_id : string;
  date : string;
  status : Status
}.
End AttendanceCreate.

Module AttendanceRecord.
Record t := mk {
  id : string;
  employee_id : string;
  date : string;
  status : Status;
  created_at : string
}.
End AttendanceRecord.

Module EmployeeWithAttendance.
Record t := mk {
  id : string;
  employee_id : string;
  full_name : string;
  email : string;
  department : string;
  created_at : string;
  present_days : nat;
  absent_days : nat
}.
End EmployeeWithAttendance.

Module DashboardStats.
Record t := mk {
  total_employees : nat;
  total_departments : nat;
  present_today : nat;
  absent_today : nat;
  total_present : nat;
  total_absent : nat;
  departments : list (string * nat)
}.
End DashboardStats.

(** The field validator [EmployeeCreate.not_empty]:
    [if not v or not v.strip(): raise ValueError; return v.strip()]. *)
Definition not_empty (v : string) : option string :=
  if decide (v = "" ∨ strip v = "") then None else Some (strip v).

(** [Field(..., min_length=lo, max_length=hi)] on a [str] field, checked on the
    value as received, before the field's validator runs. *)
Definition Field (lo hi : nat) (v : string) : option string :=
  if decide (lo ≤ len v ∧ len v ≤ hi) then Some v else None.

(** Building an [EmployeeCreate] from the four fields of a request body: the
    three text fields go through [Field] and [not_empty], [email] through the
    validator of [EmailStr], and the model holds what those return. *)
Definition EmployeeCreate_validate `{!Runtime}
    (employee_id full_name email department : string) : option EmployeeCreate.t :=
  i ← Field 1 50 employee_id ≫= not_empty;
  n ← Field 1 100 full_name ≫= not_empty;
  e ← validate_email email;
  d ← Field 1 100 department ≫= not_empty;
  Some (EmployeeCreate.mk i n e d).

(** ** The store *)

(** The tables [employees] and [attendance] created by [init_db], each a list
    of rows in rowid order.  A fresh database file has both tables empty. *)
Record DB := mkDB {
  employees : list Employee.t;
  attendance : list AttendanceRecord.t
}.

Definition init_db : DB := mkDB [] [].

(** A [sqlite3] connection.  [durable] is the content of the database file,
    [working] is what the statements of the open transaction see and change,
    and [trace] lists the durable store as it was left after each statement
    executed on this connection, oldest first. *)
Record Connection := mkConn {
  durable : DB;
  working : DB;
  trace : list DB
}.

Definition get_db_connection (db : DB) : Connection := mkConn db db [].

(** ** Handlers: state and exceptions *)

Inductive Exn :=
| HTTPException (status_code : nat) (detail : string)
| IntegrityError.

Inductive Outcome (A : Type) :=
| Return (a : A)
| Raise (e : Exn).
Arguments Return {A} a.
Arguments Raise {A} e.

Definition Handler (A : Type) : Type := Connection → Outcome A * Connection.

#[global] Instance Handler_ret : MRet Handler := λ A a c, (Return a, c).

#[global] Instance Handler_bind : MBind Handler := λ A B f m c,
  match m c with
  | (Return a, c') => f a c'
  | (Raise e, c') => (Raise e, c')
  end.

Definition raise {A} (e : Exn) : Handler A := λ c, (Raise e, c).

Definition executed (c : Connection) (working' : DB) : Connection :=
  mkConn (durable c) working' (trace c ++ [durable c]).

(** [cursor.execute] of a SELECT: reads the working copy. *)
Definition execute_select {A} (q : DB → A) : Handler A := λ c,
  (Return (q (working c)), executed c (working c)).

(** [cursor.execute] of an INSERT, UPDATE or DELETE: changes the working copy,
    or raises [sqlite3.IntegrityError] and changes nothing when the statement
    violates a constraint of the schema ([None]). *)
Definition execute_write (w : DB → option DB) : Handler () := λ c,
  match w (working c) with
  | Some db' => (Return (), executed c db')
  | None => (Raise IntegrityError, executed c (working c))
  end.

(** [conn.commit()] *)
Definition commit : Handler () := λ c,
  (Return (), mkConn (working c) (working c) (trace c ++ [working c])).

(** [conn.close()]: what was not committed is rolled back. *)
Definition close : Handler () := λ c,
  (Return (), mkConn (durable c) (durable c) (trace c)).

(** One request: the handler opens its own connection on the store; the
    store the next request sees is the durable one, also when the handler
    raised before closing. *)
Definition run {A} (h : Handler A) (db : DB) : Outcome A * DB :=
  let '(r, c) := h (get_db_connection db) in (r, durable c).

(** The durable store after each statement of the request. *)
Definition run_trace {A} (h : Handler A) (db : DB) : list DB :=
  trace (h (get_db_connection db)).2.

Definition HTTP_400_BAD_REQUEST : nat := 400.
Definition HTTP_404_NOT_FOUND : nat := 404.

(** [cursor.fetchone()] *)
Definition fetchone {A} (rows : list A) : option A := head rows.

(** ** SQL *)

Definition JoinedRow : Type := Employee.t * option AttendanceRecord.t.

(** The rows of the left join for one employee: one per attendance row with
    [e.id = a.employee_id], or one with NULL attendance columns when there is
    none. *)
Definition join_employee (ats : list AttendanceRecord.t) (e : Employee.t)
    : list JoinedRow :=
  match filter (λ a, Employee.id e = AttendanceRecord.employee_id a) ats with
  | [] => [(e, None)]
  | matched => (λ a, (e, Some a)) <$> matched
  end.

(** [FROM employees e LEFT JOIN attendance a ON e.id = a.employee_id] *)
Definition left_join (es : list Employee.t) (ats : list AttendanceRecord.t)
    : list JoinedRow :=
  es ≫= join_employee ats.

(** [GROUP BY key]: the rows of each distinct key. *)
Definition group_by {A K} `{EqDecision K} (key : A → K) (rows : list A)
    : list (list A) :=
  (λ k, filter (λ r, key r = k) rows) <$> remove_dups (key <$> rows).

(** [SUM] is NULL over no rows. *)
Definition SUM (l : list nat) : option nat :=
  match l with [] => None | _ => Some (sum_list l) end.

Definition COALESCE (x : option nat) (d : nat) : nat := default d x.

(** [CASE WHEN a.status = s THEN 1 ELSE 0 END]; [a.status] is NULL on a row
    of the left join that has no attendance. *)
Definition CASE_status (s : Status) (r : JoinedRow) : nat :=
  match r.2 with
  | Some a => if decide (AttendanceRecord.status a = s) then 1 else 0
  | None => 0
  end.

(** One output row of
    [SELECT e.*, COALESCE(SUM(CASE ..'Present'..), 0) as present_days,
                 COALESCE(SUM(CASE ..'Absent'..), 0) as absent_days]
    for one group; [e.*] is read off a row of the group. *)
Definition summary_row (g : list JoinedRow) : list EmployeeWithAttendance.t :=
  match g with
  | [] => []
  | (e, _) :: _ =>
      [EmployeeWithAttendance.mk
         (Employee.id e) (Employee.employee_id e) (Employee.full_name e)
         (Employee.email e) (Employee.department e) (Employee.created_at e)
         (COALESCE (SUM (CASE_status Present <$> g)) 0)
         (COALESCE (SUM (CASE_status Absent <$> g)) 0)]
  end.

(** [ORDER BY e.created_at DESC] *)
Definition created_at_desc (r1 r2 : EmployeeWithAttendance.t) : Prop :=
  str_le (EmployeeWithAttendance.created_at r2) (EmployeeWithAttendance.created_at r1).

#[global] Instance created_at_desc_dec r1 r2 : Decision (created_at_desc r1 r2).
Proof. unfold created_at_desc. apply _. Defined.

(** The query of [get_employees]. *)
Definition select_employees_summary (db : DB) : list EmployeeWithAttendance.t :=
  merge_sort created_at_desc
    (group_by (λ r : JoinedRow, Employee.id r.1)
       (left_join (employees db) (attendance db)) ≫= summary_row).

(** The query of [get_employee]: the same with [WHERE e.id = ?] and no
    ORDER BY. *)
Definition select_employee_summary (employee_id : string) (db : DB)
    : list EmployeeWithAttendance.t :=
  group_by (λ r : JoinedRow, Employee.id r.1)
    (filter (λ r : JoinedRow, Employee.id r.1 = employee_id)
       (left_join (employees db) (attendance db))) ≫= summary_row.

(** [INSERT INTO employees (id, employee_id, full_name, email, department,
    created_at) VALUES (?, ?, ?, ?, ?, ?)] under [id TEXT PRIMARY KEY],
    [employee_id TEXT UNIQUE] and [email TEXT UNIQUE]. *)
Definition insert_employee (row : Employee.t) (db : DB) : option DB :=
  if decide (Employee.id row ∈ Employee.id <$> employees db
             ∨ Employee.employee_id row ∈ Employee.employee_id <$> employees db
             ∨ Employee.email row ∈ Employee.email <$> employees db)
  then None
  else Some (mkDB (employees db ++ [row]) (attendance db)).

Definition attendance_key (a : AttendanceRecord.t) : string * string :=
  (AttendanceRecord.employee_id a, AttendanceRecord.date a).

(** [INSERT INTO attendance (id, employee_id, date, status, created_at)
    VALUES (?, ?, ?, ?, ?)] under [id TEXT PRIMARY KEY] and
    [UNIQUE(employee_id, date)].  The connection never turns the foreign keys
    pragma on, so SQLite does not check the FOREIGN KEY clause. *)
Definition insert_attendance (row : AttendanceRecord.t) (db : DB) : option DB :=
  if decide (AttendanceRecord.id row ∈ AttendanceRecord.id <$> attendance db
             ∨ attendance_key row ∈ attendance_key <$> attendance db)
  then None
  else Some (mkDB (employees db) (attendance db ++ [row])).

(** [UPDATE attendance SET status = ?, created_at = ? WHERE id = ?] *)
Definition update_attendance (status : Status) (created_at id : string) (db : DB)
    : option DB :=
  Some (mkDB (employees db)
          ((λ a, if decide (AttendanceRecord.id a = id)
                 then AttendanceRecord.mk (AttendanceRecord.id a)
                        (AttendanceRecord.employee_id a) (AttendanceRecord.date a)
                        status created_at
                 else a) <$> attendance db)).

(** [DELETE FROM attendance WHERE employee_id = ?] *)
Definition delete_attendance_of (employee_id : string) (db : DB) : option DB :=
  Some (mkDB (employees db)
          (filter (λ a, AttendanceRecord.employee_id a ≠ employee_id) (attendance db))).

(** [DELETE FROM employees WHERE id = ?] *)
Definition delete_employee_row (id : string) (db : DB) : option DB :=
  Some (mkDB (filter (λ e, Employee.id e ≠ id) (employees db)) (attendance db)).

(** [DELETE FROM attendance WHERE id = ?] *)
Definition delete_attendance_row (id : string) (db : DB) : option DB :=
  Some (mkDB (employees db)
          (filter (λ a, AttendanceRecord.id a ≠ id) (attendance db))).

(** [SELECT id FROM employees WHERE id = ?] *)
Definition select_employee_id (id : string) (db : DB) : list string :=
  Employee.id <$> filter (λ e, Employee.id e = id) (employees db).

(** [SELECT id FROM employees WHERE employee_id = ?] *)
Definition select_id_by_employee_id (employee_id : string) (db : DB) : list string :=
  Employee.id <$> filter (λ e, Employee.employee_id e = employee_id) (employees db).

(** [SELECT id FROM employees WHERE LOWER(email) = LOWER(?)] *)
Definition select_id_by_email (email : string) (db : DB) : list string :=
  Employee.id <$> filter (λ e, lower (Employee.email e) = lower email) (employees db).

(** [SELECT id FROM attendance WHERE employee_id = ? AND date = ?] *)
Definition select_attendance_id (employee_id date : string) (db : DB) : list string :=
  AttendanceRecord.id <$>
    filter (λ a, AttendanceRecord.employee_id a = employee_id
                 ∧ AttendanceRecord.date a = date) (attendance db).

(** [SELECT id FROM attendance WHERE id = ?] *)
Definition select_attendance_by_id (id : string) (db : DB) : list string :=
  AttendanceRecord.id <$> filter (λ a, AttendanceRecord.id a = id) (attendance db).

(** ** Employee endpoints *)

(** [GET /api/employees] *)
Definition get_employees : Handler (list EmployeeWithAttendance.t) :=
  rows ← execute_select select_employees_summary;
  close;;
  mret rows.

(** [GET /api/employees/{employee_id}] *)
Definition get_employee (employee_id : string) : Handler EmployeeWithAttendance.t :=
  rows ← execute_select (select_employee_summary employee_id);
  let row := fetchone rows in
  close;;
  match row with
  | None => raise (HTTPException HTTP_404_NOT_FOUND "Employee not found")
  | Some row => mret row
  end.

(** [POST /api/employees]; [uuid4] is the value of [uuid.uuid4()] and [now]
    that of [datetime.now().isoformat()]. *)
Definition create_employee `{!Runtime} (uuid4 : N) (now : string)
    (employee : EmployeeCreate.t) : Handler Employee.t :=
  rows ← execute_select (select_id_by_employee_id (EmployeeCreate.employee_id employee));
  (if fetchone rows is Some _
   then close;; raise (HTTPException HTTP_400_BAD_REQUEST
                         "An employee with this Employee ID already exists")
   else mret ());;
  rows ← execute_select (select_id_by_email (EmployeeCreate.email employee));
  (if fetchone rows is Some _
   then close;; raise (HTTPException HTTP_400_BAD_REQUEST
                         "An employee with this email already exists")
   else mret ());;
  let new_id := str_UUID uuid4 in
  let created_at := now in
  let row := Employee.mk new_id (EmployeeCreate.employee_id employee)
               (EmployeeCreate.full_name employee)
               (str_lower (EmployeeCreate.email employee))
               (EmployeeCreate.department employee) created_at in
  execute_write (insert_employee row);;
  commit;;
  close;;
  mret row.

(** [DELETE /api/employees/{employee_id}] *)
Definition delete_employee (employee_id : string) : Handler () :=
  rows ← execute_select (select_employee_id employee_id);
  (if fetchone rows is Some _
   then mret ()
   else close;; raise (HTTPException HTTP_404_NOT_FOUND "Employee not found"));;
  execute_write (delete_attendance_of employee_id);;
  execute_write (delete_employee_row employee_id);;
  commit;;
  close;;
  mret ().

(** ** Attendance endpoints *)

(** Python's truth value of an [Optional[str]]: [None] and [""] are false. *)
Definition truthy (v : option string) : bool :=
  match v with
  | Some (String _ _) => true
  | _ => false
  end.

(** [ORDER BY date DESC, created_at DESC] *)
Definition date_created_at_desc (r1 r2 : AttendanceRecord.t) : Prop :=
  match String.compare (AttendanceRecord.date r2) (AttendanceRecord.date r1) with
  | Lt => True
  | Eq => str_le (AttendanceRecord.created_at r2) (AttendanceRecord.created_at r1)
  | Gt => False
  end.

#[global] Instance date_created_at_desc_dec r1 r2 :
  Decision (date_created_at_desc r1 r2).
Proof. unfold date_created_at_desc. destruct (String.compare _ _); apply _. Defined.

(** The query [get_attendance] builds: ['SELECT * FROM attendance WHERE 1=1'],
    [' AND employee_id = ?'] when [employee_id] is true, [' AND date = ?'] when
    [date] is true, then [' ORDER BY date DESC, created_at DESC']. *)
Definition select_attendance (employee_id date : option string) (db : DB)
    : list AttendanceRecord.t :=
  let rows := attendance db in
  let rows :=
    if truthy employee_id
    then filter (λ a, Some (AttendanceRecord.employee_id a) = employee_id) rows
    else rows in
  let rows :=
    if truthy date
    then filter (λ a, Some (AttendanceRecord.date a) = date) rows
    else rows in
  merge_sort date_created_at_desc rows.

(** [GET /api/attendance] *)
Definition get_attendance (employee_id date : option string)
    : Handler (list AttendanceRecord.t) :=
  rows ← execute_select (select_attendance employee_id date);
  let records :=
    (λ row, AttendanceRecord.mk (AttendanceRecord.id row)
              (AttendanceRecord.employee_id row) (AttendanceRecord.date row)
              (AttendanceRecord.status row) (AttendanceRecord.created_at row))
    <$> rows in
  close;;
  mret records.

(** [POST /api/attendance] *)
Definition mark_attendance (uuid4 : N) (now : string) (attendance : AttendanceCreate.t)
    : Handler AttendanceRecord.t :=
  rows ← execute_select (select_employee_id (AttendanceCreate.employee_id attendance));
  (if fetchone rows is Some _
   then mret ()
   else close;; raise (HTTPException HTTP_404_NOT_FOUND "Employee not found"));;
  rows ← execute_select (select_attendance_id (AttendanceCreate.employee_id attendance)
                           (AttendanceCreate.date attendance));
  let existing := fetchone rows in
  let created_at := now in
  record_id ←
    match existing with
    | Some existing_id =>
        execute_write (update_attendance (AttendanceCreate.status attendance)
                         created_at existing_id);;
        mret existing_id
    | None =>
        let record_id := str_UUID uuid4 in
        execute_write (insert_attendance
          (AttendanceRecord.mk record_id (AttendanceCreate.employee_id attendance)
             (AttendanceCreate.date attendance) (AttendanceCreate.status attendance)
             created_at));;
        mret record_id
    end;
  commit;;
  close;;
  mret (AttendanceRecord.mk record_id (AttendanceCreate.employee_id attendance)
          (AttendanceCreate.date attendance) (AttendanceCreate.status attendance)
          created_at).

(** [DELETE /api/attendance/{record_id}] *)
Definition delete_attendance (record_id : string) : Handler () :=
  rows ← execute_select (select_attendance_by_id record_id);
  (if fetchone rows is Some _
   then mret ()
   else close;; raise (HTTPException HTTP_404_NOT_FOUND "Attendance record not found"));;
  execute_write (delete_attendance_row record_id);;
  commit;;
  close;;
  mret ().

(** ** Dashboard endpoint *)

(** [SELECT COUNT( * ) as count FROM attendance WHERE date = ? AND status = s] *)
Definition count_attendance_on (date : string) (s : Status) (db : DB) : nat :=
  length (filter (λ a, AttendanceRecord.date a = date ∧ AttendanceRecord.status a = s)
            (attendance db)).

(** [SELECT COUNT( * ) as count FROM attendance WHERE status = s] *)
Definition count_attendance (s : Status) (db : DB) : nat :=
  length (filter (λ a, AttendanceRecord.status a = s) (attendance db)).

(** [ORDER BY count DESC] *)
Definition count_desc (r1 r2 : string * nat) : Prop := r2.2 ≤ r1.2.

#[global] Instance count_desc_dec r1 r2 : Decision (count_desc r1 r2).
Proof. unfold count_desc. apply _. Defined.

(** [SELECT department, COUNT( * ) as count FROM employees
    GROUP BY department ORDER BY count DESC] *)
Definition select_department_counts (db : DB) : list (string * nat) :=
  merge_sort count_desc
    (group_by Employee.department (employees db) ≫= λ g,
       match g with
       | [] => []
       | e :: _ => [(Employee.department e, length g)]
       end).

(** [GET /api/dashboard]; [today] is the value of [date.today().isoformat()]. *)
Definition get_dashboard_stats (today : string) : Handler DashboardStats.t :=
  total_employees ← execute_select (λ db, length (employees db));
  total_departments ← execute_select (λ db,
    length (remove_dups (Employee.department <$> employees db)));
  present_today ← execute_select (count_attendance_on today Present);
  absent_today ← execute_select (count_attendance_on today Absent);
  total_present ← execute_select (count_attendance Present);
  total_absent ← execute_select (count_attendance Absent);
  departments ← execute_select select_department_counts;
  close;;
  mret (DashboardStats.mk total_employees total_departments present_today
          absent_today total_present total_absent departments).

(** ** The API as a transition system *)

(** The requests that can change the store. *)
Inductive Request :=
| POST_employees (uuid4 : N) (now : string) (employee : EmployeeCreate.t)
| DELETE_employees (employee_id : string)
| POST_attendance (uuid4 : N) (now : string) (attendance : AttendanceCreate.t)
| DELETE_attendance (record_id : string).

(** The store a request leaves behind. *)
Definition serve `{!Runtime} (db : DB) (r : Request) : DB :=
  match r with
  | POST_employees uuid4 now employee => (run (create_employee uuid4 now employee) db).2
  | DELETE_employees employee_id => (run (delete_employee employee_id) db).2
  | POST_attendance uuid4 now a => (run (mark_attendance uuid4 now a) db).2
  | DELETE_attendance record_id => (run (delete_attendance record_id) db).2
  end.

(** The stores the API can reach from the empty one. *)
Definition reachable `{!Runtime} (db : DB) : Prop :=
  ∃ requests : list Request, foldl serve init_db requests = db.

(** ** The constraints of the schema *)

(** What [init_db] declares for the two tables: the primary keys, the UNIQUE
    columns, [UNIQUE(employee_id, date)] and the foreign key from
    [attendance.employee_id] to [employees.id]; and the ids are the non-empty
    strings [str(uuid.uuid4())] produces.  SQLite enforces the first five; the
    handlers alone keep the last two. *)
Record store_ok (db : DB) : Prop := {
  employees_pk : NoDup (Employee.id <$> employees db);
  employees_employee_id_unique : NoDup (Employee.employee_id <$> employees db);
  employees_email_unique : NoDup (Employee.email <$> employees db);
  attendance_pk : NoDup (AttendanceRecord.id <$> attendance db);
  attendance_unique : NoDup (attendance_key <$> attendance db);
  attendance_fk : ∀ a, a ∈ attendance db →
    AttendanceRecord.employee_id a ∈ Employee.id <$> employees db;
  employees_id_nonempty : ∀ e, e ∈ employees db → Employee.id e ≠ ""
}.

(** ** Vocabulary of the specification *)

(** A record field [v] passes an optional filter. *)
Definition filter_matches (f : option string) (v : string) : Prop :=
  match f with Some x => v = x | None => True end.

#[global] Instance filter_matches_dec f v : Decision (filter_matches f v).
Proof. destruct f; simpl; apply _. Defined.

(** [date1] is later than [date2], and on the same date [created_at1] is not
    earlier than [created_at2]: the order of [ORDER BY date DESC, created_at
    DESC] spelled out. *)
Definition later_first (r1 r2 : AttendanceRecord.t) : Prop :=
  String.ltb (AttendanceRecord.date r2) (AttendanceRecord.date r1) = true
  ∨ (AttendanceRecord.date r1 = AttendanceRecord.date r2
     ∧ str_le (AttendanceRecord.created_at r2) (AttendanceRecord.created_at r1)).

(** The number of attendance records of one employee with one status. *)
Definition days (s : Status) (employee_id : string) (db : DB) : nat :=
  length (filter (λ a, AttendanceRecord.employee_id a = employee_id
                       ∧ AttendanceRecord.status a = s) (attendance db)).

(** An employee row next to its two counts, as the list endpoint returns it. *)
Definition with_attendance (present absent : nat) (e : Employee.t)
    : EmployeeWithAttendance.t :=
  EmployeeWithAttendance.mk (Employee.id e) (Employee.employee_id e)
    (Employee.full_name e) (Employee.email e) (Employee.department e)
    (Employee.created_at e) present absent.

Definition to_employee (r : EmployeeWithAttendance.t) : Employee.t :=
  Employee.mk (EmployeeWithAttendance.id r) (EmployeeWithAttendance.employee_id r)
    (EmployeeWithAttendance.full_name r) (EmployeeWithAttendance.email r)
    (EmployeeWithAttendance.department r) (EmployeeWithAttendance.created_at r).

(** ** A runtime and a small store to evaluate the handlers on *)

(** [str.lower] on the letters of the Latin-1 Supplement: U+00C0-U+00DE
    without U+00D7, in UTF-8 the byte [0xC3] followed by [0x80]-[0x9E] without
    [0x97], become U+00E0-U+00FE.  The examples use no other character
    outside ASCII. *)
Fixpoint latin1_lower (s : string) : string :=
  match s with
  | EmptyString => EmptyString
  | String c s' =>
      match s' with
      | String d r =>
          if byte_is c 195 && byte_in d 128 158 && negb (byte_is d 151)
          then String c (String (ascii_of_N (N_of_ascii d + 32)) (latin1_lower r))
          else String c (latin1_lower s')
      | EmptyString => String c EmptyString
      end
  end.

Fixpoint split_at (n : N) (s : string) : option (string * string) :=
  match s with
  | EmptyString => None
  | String c r =>
      if byte_is c n then Some (EmptyString, r)
      else match split_at n r with
           | Some (before, after) => Some (String c before, after)
           | None => None
           end
  end.

(** The validator of [EmailStr] on the plain addresses of the examples: a
    non-empty local part, one [@] and a domain with a dot; the domain comes
    back lower-cased. *)
Definition plain_email (s : string) : option string :=
  match split_at 64 s with
  | Some (String c local, domain) =>
      match split_at 64 domain, split_at 46 domain with
      | None, Some (String _ _, String _ _) =>
          Some (String c local +:+ "@" +:+ lower domain)
      | _, _ => None
      end
  | _ => None
  end.

Definition example_runtime : Runtime :=
  {| unicode_lower := latin1_lower; validate_email := plain_email |}.

Definition jane : EmployeeCreate.t :=
  EmployeeCreate.mk "E001" "Jane Doe" "Jane.Doe@Example.com" "Engineering".
Definition ravi : EmployeeCreate.t :=
  EmployeeCreate.mk "E002" "Ravi Kumar" "ravi@example.com" "Operations".

Definition jane_id : string := str_UUID 1.
Definition ravi_id : string := str_UUID 2.

Definition example_requests : list Request :=
  [ POST_employees 1 "2024-01-10T09:00:00" jane;
    POST_employees 2 "2024-01-11T09:00:00" ravi;
    POST_attendance 16 "2024-01-15T09:30:00"
      (AttendanceCreate.mk jane_id "2024-01-15" Present);
    POST_attendance 17 "2024-01-15T09:31:00"
      (AttendanceCreate.mk ravi_id "2024-01-15" Absent);
    POST_attendance 18 "2024-01-16T09:30:00"
      (AttendanceCreate.mk jane_id "2024-01-16" Present) ].

Definition example_db : DB :=
  foldl (@serve example_runtime) init_db example_requests.

(** * Properties *)

Section properties.
Context `{!Runtime}.

(** ** Strings *)

Ltac byte_facts :=
  unfold byte_is, byte_in in *;
  repeat match goal with
  | H : _ || _ = true |- _ => apply orb_true_iff in H
  | H : _ && _ = true |- _ => apply andb_true_iff in H
  | H : _ || _ = false |- _ => apply orb_false_iff in H
  | H : _ && _ = false |- _ => apply andb_false_iff in H
  | H : _ ∧ _ |- _ => destruct H
  | H : _ ∨ _ |- _ => destruct H
  | H : (_ <=? _)%N = true |- _ => apply N.leb_le in H
  | H : (_ <=? _)%N = false |- _ => apply N.leb_gt in H
  | H : (_ =? _)%N = true |- _ => apply N.eqb_eq in H
  | H : (_ =? _)%N = false |- _ => apply N.eqb_neq in H
  end.

Section strings.
Implicit Types (s v w r : string) (c : ascii).

Lemma append_assoc s1 s2 s3 : (s1 +:+ s2) +:+ s3 = s1 +:+ s2 +:+ s3.
Proof.
  induction s1 as [|c s1 IH]; [done|].
  change (String c ((s1 +:+ s2) +:+ s3) = String c (s1 +:+ s2 +:+ s3)).
  by f_equal.
Qed.

Lemma append_nil_r s : s +:+ "" = s.
Proof.
  induction s as [|c s IH]; [done|].
  change (String c (s +:+ "") = String c s). by f_equal.
Qed.

Lemma length_append s1 s2 :
  String.length (s1 +:+ s2) = String.length s1 + String.length s2.
Proof.
  induction s1 as [|c s1 IH]; [done|].
  change (S (String.length (s1 +:+ s2)) = S (String.length s1 + String.length s2)).
  by f_equal.
Qed.

Lemma len_append s1 s2 : len (s1 +:+ s2) = len s1 + len s2.
Proof.
  induction s1 as [|c s1 IH]; [done|].
  change ((if byte_in c 128 191 then 0 else 1) + len (s1 +:+ s2)
          = (if byte_in c 128 191 then 0 else 1) + len s1 + len s2).
  rewrite IH. lia.
Qed.

Lemma not_continuation c lo hi :
  byte_in c lo hi = true → (hi < 128 ∨ 191 < lo)%N → byte_in c 128 191 = false.
Proof.
  intros Hc Hrange. destruct (byte_in c 128 191) eqn:Hcont; [|done].
  byte_facts; lia.
Qed.

Lemma continuation c lo hi :
  byte_in c lo hi = true → (128 ≤ lo ∧ hi ≤ 191)%N → byte_in c 128 191 = true.
Proof.
  intros Hc Hrange. destruct (byte_in c 128 191) eqn:Hcont; [done|].
  byte_facts; lia.
Qed.

Lemma byte_is_in c n : byte_is c n = byte_in c n n.
Proof.
  unfold byte_is, byte_in.
  destruct (N.eqb_spec (N_of_ascii c) n) as [->|Hne].
  - by rewrite N.leb_refl.
  - apply eq_sym, andb_false_iff.
    destruct (N.leb_spec n (N_of_ascii c)); [right; apply N.leb_gt; lia|by left].
Qed.

(** A leading white-space character is one character, and what follows it
    can be anything. *)
Lemma space_prefix_Some s r :
  space_prefix s = Some r →
  ∃ w, s = w +:+ r ∧ len w = 1 ∧ 0 < String.length w
       ∧ ∀ x, space_prefix (w +:+ x) = Some x.
Proof.
  destruct s as [|c s]; [done|]. simpl.
  destruct (byte_in c 9 13 || byte_in c 28 32) eqn:H1.
  { intros [= <-]. exists (String c ""). split_and!; [done| |simpl; lia|].
    - simpl. apply orb_true_iff in H1 as [H1|H1];
        by erewrite not_continuation by (done || lia).
    - intros x. simpl. by rewrite H1. }
  destruct s as [|d s]; [done|].
  destruct (byte_is c 194 && (byte_is d 133 || byte_is d 160)) eqn:H2.
  { intros [= <-]. exists (String c (String d "")). split_and!; [done| |simpl; lia|].
    - simpl. apply andb_true_iff in H2 as [Hc Hd]. rewrite !byte_is_in in *.
      erewrite (not_continuation c) by (done || lia).
      apply orb_true_iff in Hd as [Hd|Hd];
        by erewrite (continuation d) by (done || lia).
    - intros x. simpl. by rewrite H1, H2. }
  destruct s as [|e s]; [done|].
  match goal with |- (if ?b then _ else _) = _ → _ => destruct b eqn:H3 end; [|done].
  intros [= <-]. exists (String c (String d (String e ""))).
  split_and!; [done| |simpl; lia|].
  - simpl. rewrite !byte_is_in in *.
    repeat match goal with
    | H : _ || _ = true |- _ => apply orb_true_iff in H as [H|H]
    | H : _ && _ = true |- _ => apply andb_true_iff in H as [? H]
    end;
    erewrite (not_continuation c) by (done || lia);
    erewrite (continuation d) by (done || lia);
    by erewrite (continuation e) by (done || lia).
  - intros x. simpl. by rewrite H1, H2, H3.
Qed.

Lemma lstrip_fuel_enough n m s :
  String.length s ≤ n → String.length s ≤ m → lstrip_fuel n s = lstrip_fuel m s.
Proof.
  revert m s. induction n as [|n IH]; intros m s Hn Hm.
  - destruct s; [|simpl in Hn; lia]. by destruct m.
  - destruct m as [|m].
    + destruct s; [done|simpl in Hm; lia].
    + simpl. destruct (space_prefix s) as [r|] eqn:Hs; [|done].
      apply space_prefix_Some in Hs as (w & -> & _ & Hw & _).
      rewrite length_append in Hn, Hm. apply IH; lia.
Qed.

Lemma lstrip_eq s :
  lstrip s = match space_prefix s with Some r => lstrip r | None => s end.
Proof.
  unfold lstrip. destruct s as [|c s]; [done|].
  change (String.length (String c s)) with (S (String.length s)).
  cbn [lstrip_fuel]. destruct (space_prefix (String c s)) as [r|] eqn:Hs; [|done].
  apply space_prefix_Some in Hs as (w & Heq & _ & Hw & _).
  apply (f_equal String.length) in Heq. rewrite length_append in Heq. simpl in Heq.
  apply lstrip_fuel_enough; lia.
Qed.

Lemma string_length_ind (P : string → Prop) :
  (∀ s, (∀ r, String.length r < String.length s → P r) → P s) → ∀ s, P s.
Proof.
  intros HP s. remember (String.length s) as n eqn:Hn.
  revert s Hn. induction n as [n IH] using lt_wf_ind. intros s ->.
  apply HP. intros r Hr. by apply (IH _ Hr).
Qed.

Lemma all_space_lstrip s : all_space s = true ↔ lstrip s = "".
Proof. unfold all_space. by destruct (lstrip s). Qed.

Lemma lstrip_spec s :
  ∃ pre, s = pre +:+ lstrip s ∧ all_space pre = true
         ∧ no_leading_space (lstrip s).
Proof.
  induction s as [s IH] using string_length_ind.
  rewrite lstrip_eq. destruct (space_prefix s) as [r|] eqn:Hs.
  - apply space_prefix_Some in Hs as (w & -> & _ & Hw & Hskip).
    destruct (IH r) as (pre & Hr & Hpre & Hlead);
      [rewrite length_append; lia|].
    exists (w +:+ pre). split_and!; [|rewrite all_space_lstrip|done].
    + by rewrite append_assoc, <- Hr.
    + rewrite lstrip_eq, Hskip. by apply all_space_lstrip.
  - by exists "".
Qed.

Lemma lstrip_append s x : all_space s = true → lstrip (s +:+ x) = lstrip x.
Proof.
  induction s as [s IH] using string_length_ind. intros Hs.
  apply all_space_lstrip in Hs. rewrite lstrip_eq in Hs.
  destruct (space_prefix s) as [r|] eqn:Hpre.
  - apply space_prefix_Some in Hpre as (w & -> & _ & Hw & Hskip).
    rewrite append_assoc, lstrip_eq, Hskip.
    apply IH; [rewrite length_append; lia|by apply all_space_lstrip].
  - by subst s.
Qed.

Lemma all_space_append s x : all_space s = true → all_space (s +:+ x) = all_space x.
Proof. intros Hs. unfold all_space. by rewrite lstrip_append. Qed.

Lemma lstrip_id s : no_leading_space s → lstrip s = s.
Proof. intros Hs. by rewrite lstrip_eq, Hs. Qed.

Lemma rstrip_spec s :
  ∃ post, s = rstrip s +:+ post ∧ all_space post = true.
Proof.
  induction s as [|c s (post & Hs & Hpost)]; [by exists ""|].
  cbn [rstrip]. destruct (all_space (String c s)) eqn:Hall.
  - by exists (String c s).
  - exists post. split; [|done].
    change (String c s = String c (rstrip s +:+ post)). by f_equal.
Qed.

Lemma rstrip_no_trailing s : no_trailing_space (rstrip s).
Proof.
  induction s as [|c s IH]; intros p q Hpq Hq.
  - destruct p, q; done.
  - cbn [rstrip] in Hpq. destruct (all_space (String c s)) eqn:Hall.
    { destruct p, q; done. }
    destruct p as [|c' p].
    + change (String c (rstrip s) = q) in Hpq. subst q.
      destruct (rstrip_spec s) as (post & Hs & Hpost).
      destruct (all_space (String c (rstrip s))) eqn:Hall'; [|done].
      assert (all_space (String c s) = true) as Hall''; [|congruence].
      rewrite Hs.
      change (String c (rstrip s +:+ post)) with (String c (rstrip s) +:+ post).
      by rewrite all_space_append.
    + change (String c (rstrip s) = String c' (p +:+ q)) in Hpq.
      injection Hpq as <- Hpq. by apply (IH p q).
Qed.

Lemma rstrip_no_leading s : no_leading_space s → no_leading_space (rstrip s).
Proof.
  unfold no_leading_space. intros Hs.
  destruct (space_prefix (rstrip s)) as [r|] eqn:Hr; [|done].
  apply space_prefix_Some in Hr as (w & Hw & _ & _ & Hskip).
  destruct (rstrip_spec s) as (post & Heq & _).
  rewrite Heq, Hw, append_assoc, Hskip in Hs. done.
Qed.

Lemma rstrip_id s : no_trailing_space s → rstrip s = s.
Proof.
  induction s as [|c s IH]; [done|]. intros Hs. cbn [rstrip].
  rewrite (Hs "" (String c s)) by done. f_equal. apply IH.
  intros p q -> Hq. by apply (Hs (String c p) q).
Qed.

(** [strip] takes a run of white-space characters off each end, and what is
    left neither begins nor ends with one. *)
Lemma strip_spec v :
  ∃ pre post, v = pre +:+ strip v +:+ post
    ∧ all_space pre = true ∧ all_space post = true
    ∧ no_leading_space (strip v) ∧ no_trailing_space (strip v).
Proof.
  destruct (lstrip_spec v) as (pre & Hv & Hpre & Hlead).
  destruct (rstrip_spec (lstrip v)) as (post & Hl & Hpost).
  exists pre, post. unfold strip. split_and!; try done.
  - by rewrite <- Hl.
  - by apply rstrip_no_leading.
  - apply rstrip_no_trailing.
Qed.

Lemma strip_idemp v : strip (strip v) = strip v.
Proof.
  destruct (strip_spec v) as (_ & _ & _ & _ & _ & Hlead & Htrail).
  unfold strip at 1. by rewrite lstrip_id, rstrip_id.
Qed.

Lemma len_strip v : len (strip v) ≤ len v.
Proof.
  destruct (strip_spec v) as (pre & post & Hv & _).
  rewrite Hv at 2. rewrite !len_append. lia.
Qed.

Lemma rstrip_empty s : rstrip s = "" ↔ all_space s = true.
Proof.
  destruct s as [|c s]; [done|]. cbn [rstrip].
  by destruct (all_space (String c s)).
Qed.

Lemma strip_empty v : strip v = "" ↔ all_space v = true.
Proof.
  unfold strip. rewrite rstrip_empty, !all_space_lstrip.
  destruct (lstrip_spec v) as (_ & _ & _ & Hlead). by rewrite (lstrip_id _ Hlead).
Qed.


Lemma ascii_compare_refl c : Ascii.compare c c = Eq.
Proof. apply N.compare_refl. Qed.

Lemma ascii_compare_lt_trans c1 c2 c3 :
  Ascii.compare c1 c2 = Lt → Ascii.compare c2 c3 = Lt → Ascii.compare c1 c3 = Lt.
Proof. unfold Ascii.compare. rewrite !N.compare_lt_iff. lia. Qed.

Lemma string_compare_refl s : String.compare s s = Eq.
Proof. induction s; simpl; [done|]. by rewrite ascii_compare_refl. Qed.

Lemma string_compare_lt_trans s1 s2 s3 :
  String.compare s1 s2 = Lt → String.compare s2 s3 = Lt →
  String.compare s1 s3 = Lt.
Proof.
  revert s2 s3. induction s1 as [|c1 s1 IH]; intros [|c2 s2] [|c3 s3]; simpl;
    try done.
  destruct (Ascii.compare c1 c2) eqn:H12; try done;
    destruct (Ascii.compare c2 c3) eqn:H23; try done; intros Ha Hb.
  - apply Ascii.compare_eq_iff in H12 as ->. rewrite H23. eauto.
  - apply Ascii.compare_eq_iff in H12 as ->. by rewrite H23.
  - apply Ascii.compare_eq_iff in H23 as <-. by rewrite H12.
  - by rewrite (ascii_compare_lt_trans _ _ _ H12 H23).
Qed.

Lemma string_compare_gt_lt s1 s2 :
  String.compare s1 s2 = Gt ↔ String.compare s2 s1 = Lt.
Proof.
  rewrite (String.compare_antisym s2 s1).
  destruct (String.compare s1 s2); simpl; naive_solver.
Qed.

#[global] Instance str_le_refl : Reflexive str_le.
Proof. intros s. unfold str_le, String.leb. by rewrite string_compare_refl. Qed.

#[global] Instance str_le_total : Total str_le.
Proof. intros a b. apply String.leb_total. Qed.

#[global] Instance str_le_trans : Transitive str_le.
Proof.
  intros a b c. unfold str_le, String.leb.
  destruct (String.compare a b) eqn:Hab; try done;
    destruct (String.compare b c) eqn:Hbc; try done; intros _ _.
  - apply String.compare_eq_iff in Hab as ->. by rewrite Hbc.
  - apply String.compare_eq_iff in Hab as ->. by rewrite Hbc.
  - apply String.compare_eq_iff in Hbc as <-. by rewrite Hab.
  - by rewrite (string_compare_lt_trans _ _ _ Hab Hbc).
Qed.

#[global] Instance str_le_antisymm : AntiSymm (=) str_le.
Proof. intros a b. apply String.leb_antisym. Qed.

Lemma append_cons_nonempty s1 c s2 : s1 +:+ String c s2 ≠ "".
Proof. by destruct s1. Qed.

Lemma str_UUID_nonempty u : str_UUID u ≠ "".
Proof. unfold str_UUID. apply (append_cons_nonempty _ "-"%char). Qed.
End strings.

(** ** What one request returns and leaves in the store *)

Ltac unfold_handler :=
  cbv [run run_trace mbind mret Handler_bind Handler_ret raise execute_select
       execute_write commit close executed get_db_connection fetchone
       durable working trace].

Section handlers.
Implicit Types (db : DB) (now : string).

Lemma run_get_employees db :
  run get_employees db = (Return (select_employees_summary db), db).
Proof. done. Qed.

Lemma run_get_employee employee_id db :
  run (get_employee employee_id) db =
    (match select_employee_summary employee_id db with
     | [] => Raise (HTTPException 404 "Employee not found")
     | row :: _ => Return row
     end, db).
Proof.
  unfold get_employee. unfold_handler.
  by destruct (select_employee_summary employee_id db).
Qed.

Lemma run_get_attendance employee_id date db :
  run (get_attendance employee_id date) db =
    (Return (select_attendance employee_id date db), db).
Proof.
  unfold get_attendance. unfold_handler. simpl. do 2 f_equal.
  rewrite <- (list_fmap_id (select_attendance _ _ _)) at 2.
  apply list_fmap_ext. by intros _ [] _.
Qed.

Lemma run_get_dashboard_stats today db :
  run (get_dashboard_stats today) db =
    (Return (DashboardStats.mk
               (length (employees db))
               (length (remove_dups (Employee.department <$> employees db)))
               (count_attendance_on today Present db)
               (count_attendance_on today Absent db)
               (count_attendance Present db) (count_attendance Absent db)
               (select_department_counts db)), db).
Proof. done. Qed.

Lemma run_create_employee uuid4 now employee db :
  run (create_employee uuid4 now employee) db =
    match select_id_by_employee_id (EmployeeCreate.employee_id employee) db with
    | _ :: _ =>
        (Raise (HTTPException 400 "An employee with this Employee ID already exists"),
         db)
    | [] =>
        match select_id_by_email (EmployeeCreate.email employee) db with
        | _ :: _ =>
            (Raise (HTTPException 400 "An employee with this email already exists"),
             db)
        | [] =>
            let row := Employee.mk (str_UUID uuid4)
                         (EmployeeCreate.employee_id employee)
                         (EmployeeCreate.full_name employee)
                         (str_lower (EmployeeCreate.email employee))
                         (EmployeeCreate.department employee) now in
            match insert_employee row db with
            | Some db' => (Return row, db')
            | None => (Raise IntegrityError, db)
            end
        end
    end.
Proof.
  unfold create_employee. unfold_handler.
  destruct (select_id_by_employee_id _ db); simpl; [|done].
  destruct (select_id_by_email _ db); simpl; [|done].
  by destruct (insert_employee _ db).
Qed.

Lemma run_delete_employee employee_id db :
  run (delete_employee employee_id) db =
    match select_employee_id employee_id db with
    | [] => (Raise (HTTPException 404 "Employee not found"), db)
    | _ :: _ =>
        (Return (),
         mkDB (filter (λ e, Employee.id e ≠ employee_id) (employees db))
              (filter (λ a, AttendanceRecord.employee_id a ≠ employee_id)
                 (attendance db)))
    end.
Proof.
  unfold delete_employee. unfold_handler.
  by destruct (select_employee_id _ db).
Qed.

Lemma run_mark_attendance uuid4 now a db :
  run (mark_attendance uuid4 now a) db =
    match select_employee_id (AttendanceCreate.employee_id a) db with
    | [] => (Raise (HTTPException 404 "Employee not found"), db)
    | _ :: _ =>
        match select_attendance_id (AttendanceCreate.employee_id a)
                (AttendanceCreate.date a) db with
        | existing :: _ =>
            (Return (AttendanceRecord.mk existing (AttendanceCreate.employee_id a)
                       (AttendanceCreate.date a) (AttendanceCreate.status a) now),
             default db (update_attendance (AttendanceCreate.status a) now existing db))
        | [] =>
            let row := AttendanceRecord.mk (str_UUID uuid4)
                         (AttendanceCreate.employee_id a) (AttendanceCreate.date a)
                         (AttendanceCreate.status a) now in
            match insert_attendance row db with
            | Some db' => (Return row, db')
            | None => (Raise IntegrityError, db)
            end
        end
    end.
Proof.
  unfold mark_attendance. unfold_handler.
  destruct (select_employee_id _ db); simpl; [done|].
  destruct (select_attendance_id _ _ db); simpl.
  - by destruct (insert_attendance _ db).
  - done.
Qed.

Lemma run_delete_attendance record_id db :
  run (delete_attendance record_id) db =
    match select_attendance_by_id record_id db with
    | [] => (Raise (HTTPException 404 "Attendance record not found"), db)
    | _ :: _ =>
        (Return (),
         mkDB (employees db)
              (filter (λ a, AttendanceRecord.id a ≠ record_id) (attendance db)))
    end.
Proof.
  unfold delete_attendance. unfold_handler.
  by destruct (select_attendance_by_id _ db).
Qed.
End handlers.

(** ** The reachable stores satisfy the constraints of the schema *)

Section invariant.
Context {A B : Type} (f : A → B).

Lemma NoDup_fmap_filter (P : A → Prop) `{!∀ x, Decision (P x)} (l : list A) :
  NoDup (f <$> l) → NoDup (f <$> filter P l).
Proof.
  intros Hl. eapply sublist_NoDup; [exact Hl|].
  apply fmap_sublist, sublist_filter.
Qed.

Lemma NoDup_fmap_snoc (l : list A) (x : A) :
  NoDup (f <$> l) → f x ∉ f <$> l → NoDup (f <$> (l ++ [x])).
Proof.
  intros Hl Hx. rewrite fmap_app. apply NoDup_app. split_and!; [done| |].
  - intros y Hy Hin. apply list_elem_of_singleton in Hin. by subst.
  - apply NoDup_singleton.
Qed.
End invariant.

Lemma select_employee_id_nonempty id db :
  select_employee_id id db ≠ [] ↔ id ∈ Employee.id <$> employees db.
Proof.
  unfold select_employee_id. rewrite list_elem_of_fmap. split.
  - destruct (filter _ _) as [|e l] eqn:Hf; [done|]. intros _.
    assert (e ∈ filter (λ e, Employee.id e = id) (employees db)) as He
      by (rewrite Hf; left).
    apply list_elem_of_filter in He as [<- He]. eauto.
  - intros (e & -> & He) Hnil. apply fmap_nil_inv in Hnil.
    exact (filter_nil_not_elem_of _ _ e Hnil eq_refl He).
Qed.

Lemma update_attendance_fmap {B} (f : AttendanceRecord.t → B) status created_at id
    (rows : list AttendanceRecord.t) :
  (∀ a, f (AttendanceRecord.mk (AttendanceRecord.id a) (AttendanceRecord.employee_id a)
             (AttendanceRecord.date a) status created_at) = f a) →
  f <$> ((λ a, if decide (AttendanceRecord.id a = id)
               then AttendanceRecord.mk (AttendanceRecord.id a)
                      (AttendanceRecord.employee_id a) (AttendanceRecord.date a)
                      status created_at
               else a) <$> rows) = f <$> rows.
Proof.
  intros Hf. rewrite <- list_fmap_compose. apply list_fmap_ext.
  intros _ a _. simpl. by case_decide.
Qed.

Lemma store_ok_init_db : store_ok init_db.
Proof. split; simpl; try apply NoDup_nil_2; by intros ? ?%elem_of_nil. Qed.

Lemma store_ok_serve db r : store_ok db → store_ok (serve db r).
Proof.
  intros [Hpk Heid Hemail Hapk Hakey Hfk Hne]. destruct r as [u now e|i|u now a|i]; simpl.
  - rewrite run_create_employee.
    destruct (select_id_by_employee_id _ db); [|by split].
    destruct (select_id_by_email _ db); [|by split].
    simpl. unfold insert_employee. case_decide as Hdup; [by split|].
    split; simpl; try done.
    + apply NoDup_fmap_snoc; [done|]. simpl. tauto.
    + apply NoDup_fmap_snoc; [done|]. simpl. tauto.
    + apply NoDup_fmap_snoc; [done|]. simpl. tauto.
    + intros a' Ha'. rewrite fmap_app. apply elem_of_app. left. by apply Hfk.
    + intros e' [He'| ->%list_elem_of_singleton]%elem_of_app; [by apply Hne|].
      apply str_UUID_nonempty.
  - rewrite run_delete_employee.
    destruct (select_employee_id i db); [by split|].
    split; simpl; try by apply NoDup_fmap_filter.
    + intros a' [Ha' Hin]%list_elem_of_filter.
      apply Hfk, list_elem_of_fmap in Hin as (e' & Heq & He').
      apply list_elem_of_fmap. exists e'. split; [done|].
      apply list_elem_of_filter. split; [congruence|done].
    + intros e' [_ He']%list_elem_of_filter. by apply Hne.
  - rewrite run_mark_attendance.
    destruct (select_employee_id _ db) eqn:Hsel; [by split|].
    destruct (select_attendance_id _ _ db); simpl.
    + unfold insert_attendance. case_decide as Hdup; [by split|].
      split; simpl; try done.
      * apply NoDup_fmap_snoc; [done|]. simpl. tauto.
      * apply NoDup_fmap_snoc; [done|]. tauto.
      * intros a' [Ha'| ->%list_elem_of_singleton]%elem_of_app; [by apply Hfk|].
        simpl. apply select_employee_id_nonempty. by rewrite Hsel.
    + split; simpl; try done.
      * by rewrite update_attendance_fmap.
      * by rewrite update_attendance_fmap.
      * intros a' (a0 & -> & Ha0)%list_elem_of_fmap.
        case_decide; simpl; by apply Hfk.
  - rewrite run_delete_attendance.
    destruct (select_attendance_by_id i db); [by split|].
    split; simpl; try done; try by apply NoDup_fmap_filter.
    intros a' [_ Hin]%list_elem_of_filter. by apply Hfk.
Qed.

Lemma reachable_store_ok db : reachable db → store_ok db.
Proof.
  intros [requests <-].
  induction requests as [|r requests IH] using rev_ind.
  - apply store_ok_init_db.
  - rewrite foldl_snoc. by apply store_ok_serve.
Qed.

Lemma reachable_serve db r : reachable db → reachable (serve db r).
Proof. intros [requests <-]. exists (requests ++ [r]). by rewrite foldl_snoc. Qed.

(** ** Lists of rows with a unique column *)

Section unique_column.
Context {A B : Type} `{EqDecision B} (f : A → B).
Implicit Types (l : list A) (x : A).

Lemma filter_none (P : A → Prop) `{!∀ x, Decision (P x)} l :
  (∀ x, x ∈ l → ¬ P x) → filter P l = [].
Proof.
  intros Hl. apply elem_of_nil_inv. intros x [HP Hx]%list_elem_of_filter.
  by apply (Hl x).
Qed.

Lemma filter_all (P : A → Prop) `{!∀ x, Decision (P x)} l :
  (∀ x, x ∈ l → P x) → filter P l = l.
Proof.
  induction l as [|x l IH]; intros Hl; [done|].
  rewrite filter_cons_True by (apply Hl; left).
  f_equal. apply IH. intros y Hy. apply Hl. by right.
Qed.

Lemma fmap_fixed (g : A → A) l : (∀ x, x ∈ l → g x = x) → g <$> l = l.
Proof.
  intros Hl. rewrite <- (list_fmap_id l) at 2. apply list_fmap_ext.
  intros i x Hx. apply Hl. by eapply list_elem_of_lookup_2.
Qed.

Lemma NoDup_fmap_split l1 x l2 :
  NoDup (f <$> (l1 ++ x :: l2)) →
  (∀ y, y ∈ l1 → f y ≠ f x) ∧ (∀ y, y ∈ l2 → f y ≠ f x).
Proof.
  rewrite fmap_app, fmap_cons, NoDup_app, NoDup_cons.
  intros (_ & Hl1 & Hx & _). split; intros y Hy Heq.
  - apply (Hl1 (f y)); [by apply list_elem_of_fmap_2|]. rewrite Heq. left.
  - apply Hx. rewrite <- Heq. by apply list_elem_of_fmap_2.
Qed.

Lemma filter_unique_split l1 x l2 :
  NoDup (f <$> (l1 ++ x :: l2)) →
  filter (λ y, f y = f x) (l1 ++ x :: l2) = [x].
Proof.
  intros [Hl1 Hl2]%NoDup_fmap_split.
  rewrite filter_app, filter_cons_True by done.
  by rewrite !filter_none.
Qed.

Lemma filter_unique l x :
  NoDup (f <$> l) → x ∈ l → filter (λ y, f y = f x) l = [x].
Proof.
  intros Hl (l1 & l2 & ->)%list_elem_of_split. by apply filter_unique_split.
Qed.
End unique_column.

(** ** Marking attendance *)

Section mark_attendance.
Variables (uuid4 : N) (now : string) (a : AttendanceCreate.t) (db : DB).

Local Abbreviation employee_id := (AttendanceCreate.employee_id a).
Local Abbreviation date := (AttendanceCreate.date a).
Local Abbreviation status := (AttendanceCreate.status a).

Lemma select_attendance_id_filter :
  select_attendance_id employee_id date db =
    AttendanceRecord.id <$>
      filter (λ r, attendance_key r = (employee_id, date)) (attendance db).
Proof.
  unfold select_attendance_id. f_equal. apply list_filter_iff.
  intros r. unfold attendance_key. split; [by intros [-> ->]|by intros [= -> ->]].
Qed.

Lemma select_attendance_id_nil :
  (employee_id, date) ∉ attendance_key <$> attendance db →
  select_attendance_id employee_id date db = [].
Proof.
  intros Hkey. rewrite select_attendance_id_filter, filter_none; [done|].
  intros r Hr Heq. apply Hkey. rewrite <- Heq. by apply list_elem_of_fmap_2.
Qed.

(** The record of [(employee_id, date)] is rewritten where it stands. *)
Lemma mark_attendance_existing rows1 existing rows2 :
  store_ok db →
  employee_id ∈ Employee.id <$> employees db →
  attendance db = rows1 ++ existing :: rows2 →
  attendance_key existing = (employee_id, date) →
  run (mark_attendance uuid4 now a) db =
    (Return (AttendanceRecord.mk (AttendanceRecord.id existing) employee_id date
               status now),
     mkDB (employees db)
       (rows1 ++ AttendanceRecord.mk (AttendanceRecord.id existing)
                   (AttendanceRecord.employee_id existing)
                   (AttendanceRecord.date existing) status now :: rows2)).
Proof.
  intros Hok Hemp Hrows Hkey. rewrite run_mark_attendance.
  apply select_employee_id_nonempty in Hemp.
  destruct (select_employee_id _ db); [done|].
  rewrite select_attendance_id_filter, Hrows, <- Hkey.
  rewrite filter_unique_split by (rewrite <- Hrows; apply Hok). simpl.
  do 2 f_equal. rewrite Hrows.
  pose proof (attendance_pk _ Hok) as Hpk. rewrite Hrows in Hpk.
  apply NoDup_fmap_split in Hpk as [Hl1 Hl2].
  rewrite fmap_app, fmap_cons, decide_True by done.
  rewrite !fmap_fixed; [done|..]; intros r Hr; rewrite decide_False; auto.
Qed.

(** Without a record of [(employee_id, date)], a row with the new id is
    appended. *)
Lemma mark_attendance_new :
  employee_id ∈ Employee.id <$> employees db →
  (employee_id, date) ∉ attendance_key <$> attendance db →
  str_UUID uuid4 ∉ AttendanceRecord.id <$> attendance db →
  let row := AttendanceRecord.mk (str_UUID uuid4) employee_id date status now in
  run (mark_attendance uuid4 now a) db =
    (Return row, mkDB (employees db) (attendance db ++ [row])).
Proof.
  intros Hemp Hkey Hfresh row. rewrite run_mark_attendance.
  apply select_employee_id_nonempty in Hemp.
  destruct (select_employee_id _ db); [done|].
  rewrite select_attendance_id_nil by done. simpl.
  unfold insert_attendance. rewrite decide_False; [done|].
  intros [?|?]; auto.
Qed.

Lemma mark_attendance_not_found :
  employee_id ∉ Employee.id <$> employees db →
  run (mark_attendance uuid4 now a) db =
    (Raise (HTTPException 404 "Employee not found"), db)
  ∧ run_trace (mark_attendance uuid4 now a) db = [db].
Proof.
  intros Hemp.
  assert (select_employee_id employee_id db = []) as Hsel.
  { destruct (select_employee_id employee_id db) eqn:Hs; [done|].
    destruct Hemp. apply select_employee_id_nonempty. by rewrite Hs. }
  split.
  - rewrite run_mark_attendance. by rewrite Hsel.
  - unfold mark_attendance. unfold_handler. by rewrite Hsel.
Qed.
End mark_attendance.

(** A successful mark leaves one record of the pair, with the status marked. *)
Lemma mark_attendance_leaves uuid4 now employee_id date status db :
  store_ok db →
  employee_id ∈ Employee.id <$> employees db →
  (employee_id, date) ∈ attendance_key <$> attendance db
    ∨ str_UUID uuid4 ∉ AttendanceRecord.id <$> attendance db →
  let db' := serve db (POST_attendance uuid4 now
                         (AttendanceCreate.mk employee_id date status)) in
  employees db' = employees db
  ∧ ∃ r, r ∈ attendance db' ∧ attendance_key r = (employee_id, date)
         ∧ AttendanceRecord.status r = status.
Proof.
  intros Hok Hemp Hcase db'. subst db'. simpl.
  destruct (decide ((employee_id, date) ∈ attendance_key <$> attendance db))
    as [Hin|Hnotin].
  - apply list_elem_of_fmap in Hin as (existing & Hkey & Hin).
    apply list_elem_of_split in Hin as (rows1 & rows2 & Hrows).
    erewrite mark_attendance_existing by done. simpl. split; [done|].
    eexists. split; [apply elem_of_app; right; left|].
    unfold attendance_key in *. simpl. by simplify_eq.
  - destruct Hcase as [?|Hfresh]; [done|].
    rewrite mark_attendance_new by done. simpl. split; [done|].
    eexists. split; [apply elem_of_app; right; left|done].
Qed.

(** C1. Marking attendance for an existing employee, in a store the API can
    reach.  When the table holds a record [existing] of the pair
    [(employee_id, date)], the handler returns that record's id with the
    date, the status and the time of the request, and the table afterwards is
    the same list with [status] and [created_at] of that one row replaced: the
    rows before and after it, its position, its [id], [employee_id] and [date]
    and the employees are as they were.  When the table holds no such record
    and [uuid4()] is not the id of an attendance row, the handler appends one
    row with that id and returns it. *)
Theorem mark_attendance_upsert uuid4 now a db :
  reachable db →
  AttendanceCreate.employee_id a ∈ Employee.id <$> employees db →
  (∀ rows1 existing rows2,
     attendance db = rows1 ++ existing :: rows2 →
     attendance_key existing = (AttendanceCreate.employee_id a, AttendanceCreate.date a) →
     run (mark_attendance uuid4 now a) db =
       (Return (AttendanceRecord.mk (AttendanceRecord.id existing)
                  (AttendanceCreate.employee_id a) (AttendanceCreate.date a)
                  (AttendanceCreate.status a) now),
        mkDB (employees db)
          (rows1 ++ AttendanceRecord.mk (AttendanceRecord.id existing)
                      (AttendanceRecord.employee_id existing)
                      (AttendanceRecord.date existing)
                      (AttendanceCreate.status a) now :: rows2)))
  ∧ ((AttendanceCreate.employee_id a, AttendanceCreate.date a)
       ∉ attendance_key <$> attendance db →
     str_UUID uuid4 ∉ AttendanceRecord.id <$> attendance db →
     let row := AttendanceRecord.mk (str_UUID uuid4) (AttendanceCreate.employee_id a)
                  (AttendanceCreate.date a) (AttendanceCreate.status a) now in
     run (mark_attendance uuid4 now a) db =
       (Return row, mkDB (employees db) (attendance db ++ [row]))).
Proof.
  intros Hreach Hemp. apply reachable_store_ok in Hreach. split.
  - intros rows1 existing rows2 Hrows Hkey. by apply mark_attendance_existing.
  - intros Hkey Hfresh. by apply mark_attendance_new.
Qed.

(** C8. Marking attendance for an employee id that no employee has raises
    404 "Employee not found" and leaves the store as it was: the tables are
    unchanged, and the only statement the request executed, the look-up of
    the employee, left the durable store untouched. *)
Theorem mark_attendance_unknown_employee uuid4 now a db :
  AttendanceCreate.employee_id a ∉ Employee.id <$> employees db →
  run (mark_attendance uuid4 now a) db =
    (Raise (HTTPException 404 "Employee not found"), db)
  ∧ run_trace (mark_attendance uuid4 now a) db = [db].
Proof. apply mark_attendance_not_found. Qed.

(** C2. In every store the API can reach from the empty one, no two
    attendance records have the same [(employee_id, date)].  And when an
    existing employee is marked Present and then Absent on the same date (the
    id [uuid4()] gives the first request not being taken), the records of that
    pair afterwards are exactly one, with status Absent. *)
Theorem attendance_unique_per_day db :
  reachable db →
  NoDup (attendance_key <$> attendance db)
  ∧ ∀ employee_id date uuid4 now uuid4' now',
      employee_id ∈ Employee.id <$> employees db →
      str_UUID uuid4 ∉ AttendanceRecord.id <$> attendance db →
      let db1 := serve db (POST_attendance uuid4 now
                             (AttendanceCreate.mk employee_id date Present)) in
      let db2 := serve db1 (POST_attendance uuid4' now'
                              (AttendanceCreate.mk employee_id date Absent)) in
      ∃ r, filter (λ a, attendance_key a = (employee_id, date)) (attendance db2) = [r]
           ∧ AttendanceRecord.status r = Absent.
Proof.
  intros Hreach. pose proof (reachable_store_ok _ Hreach) as Hok.
  split; [apply Hok|].
  intros employee_id date uuid4 now uuid4' now' Hemp Hfresh db1 db2.
  destruct (mark_attendance_leaves uuid4 now employee_id date Present db)
    as (Hemps1 & r1 & Hr1 & Hkey1 & _); [done..|by right|].
  fold db1 in Hemps1, Hr1.
  assert (store_ok db1) as Hok1 by by apply store_ok_serve.
  destruct (mark_attendance_leaves uuid4' now' employee_id date Absent db1)
    as (_ & r2 & Hr2 & Hkey2 & Hstatus); [done|by rewrite Hemps1| |].
  { left. rewrite <- Hkey1. by apply list_elem_of_fmap_2. }
  fold db2 in Hr2.
  assert (store_ok db2) as Hok2 by by apply store_ok_serve.
  exists r2. split; [|done]. rewrite <- Hkey2.
  apply (filter_unique attendance_key); [apply Hok2|done].
Qed.

(** ** Creating and deleting employees *)

Lemma select_nil {A B} (g : A → B) (P : A → Prop) `{!∀ x, Decision (P x)} (l : list A) :
  g <$> filter P l = [] ↔ ∀ x, x ∈ l → ¬ P x.
Proof.
  split.
  - intros Hnil%fmap_nil_inv x Hx HP. by eapply filter_nil_not_elem_of.
  - intros Hl. by rewrite filter_none.
Qed.

Lemma select_id_by_employee_id_nil employee_id db :
  select_id_by_employee_id employee_id db = []
  ↔ employee_id ∉ Employee.employee_id <$> employees db.
Proof.
  unfold select_id_by_employee_id. rewrite select_nil, list_elem_of_fmap. split.
  - intros Hnone (e & -> & He). by apply (Hnone e).
  - intros Hnone e He Heq. apply Hnone. eauto.
Qed.

Lemma select_id_by_email_nil email db :
  select_id_by_email email db = []
  ↔ lower email ∉ (λ e, lower (Employee.email e)) <$> employees db.
Proof.
  unfold select_id_by_email. rewrite select_nil, list_elem_of_fmap. split.
  - intros Hnone (e & Heq & He). by apply (Hnone e).
  - intros Hnone e He Heq. apply Hnone. eauto.
Qed.

(** X20. Creating an employee whose [employee_id] some employee already has
    raises 400 "An employee with this Employee ID already exists", whatever
    the e-mail is; otherwise, when the e-mail is that of some employee up to
    the case of the letters [A-Z], which is what SQLite's [LOWER] compares,
    it raises 400 "An employee with this email already exists".  In both
    cases the store is left as it was.  A request that does return an
    employee had neither collision, and added exactly that row. *)
Theorem create_employee_conflict uuid4 now employee db :
  (EmployeeCreate.employee_id employee ∈ Employee.employee_id <$> employees db →
   run (create_employee uuid4 now employee) db =
     (Raise (HTTPException 400 "An employee with this Employee ID already exists"), db))
  ∧ (EmployeeCreate.employee_id employee ∉ Employee.employee_id <$> employees db →
     lower (EmployeeCreate.email employee)
       ∈ (λ e, lower (Employee.email e)) <$> employees db →
     run (create_employee uuid4 now employee) db =
       (Raise (HTTPException 400 "An employee with this email already exists"), db))
  ∧ (∀ created db',
       run (create_employee uuid4 now employee) db = (Return created, db') →
       (EmployeeCreate.employee_id employee ∉ Employee.employee_id <$> employees db)
       ∧ (lower (EmployeeCreate.email employee)
            ∉ (λ e, lower (Employee.email e)) <$> employees db)
       ∧ employees db' = employees db ++ [created]
       ∧ attendance db' = attendance db).
Proof.
  rewrite run_create_employee. split_and!.
  - intros Hid. destruct (select_id_by_employee_id _ db) eqn:Hsel; [|done].
    by apply select_id_by_employee_id_nil in Hsel.
  - intros Hid%select_id_by_employee_id_nil Hemail. rewrite Hid.
    destruct (select_id_by_email _ db) eqn:Hsel; [|done].
    by apply select_id_by_email_nil in Hsel.
  - intros created db'.
    destruct (select_id_by_employee_id _ db) eqn:Hid; [|done].
    destruct (select_id_by_email _ db) eqn:Hemail; [|done].
    apply select_id_by_employee_id_nil in Hid.
    apply select_id_by_email_nil in Hemail.
    simpl. unfold insert_employee. case_decide; [done|].
    by intros [= <- <-].
Qed.

(** C4. The e-mail check of a creation compares with SQLite's [LOWER], which
    changes the letters [A-Z] only, while the e-mail stored is the one
    Python's [lower()] returns.  So when the e-mail of the request is that of
    an employee up to the case of its letters (Python's [lower()] gives the
    e-mail stored) but not up to the case of [A-Z] alone, and the
    [employee_id] is new, the check finds nothing, the INSERT violates the
    UNIQUE constraint on [email], and the request ends in [IntegrityError],
    not in 400 "An employee with this email already exists".  The store is
    left as it was. *)
Theorem create_employee_email_case_missed uuid4 now employee existing db :
  existing ∈ employees db →
  EmployeeCreate.employee_id employee ∉ Employee.employee_id <$> employees db →
  str_lower (EmployeeCreate.email employee) = Employee.email existing →
  lower (EmployeeCreate.email employee)
    ∉ (λ e, lower (Employee.email e)) <$> employees db →
  run (create_employee uuid4 now employee) db = (Raise IntegrityError, db).
Proof.
  intros Hexisting Hid%select_id_by_employee_id_nil Hsame
         Hemail%select_id_by_email_nil.
  rewrite run_create_employee, Hid, Hemail. cbv zeta.
  unfold insert_employee. rewrite decide_True; [done|].
  right. right. cbn [Employee.email]. rewrite Hsame.
  by apply list_elem_of_fmap_2.
Qed.


Lemma select_attendance_none employee_id db :
  employee_id ≠ "" →
  (∀ a, a ∈ attendance db → AttendanceRecord.employee_id a ≠ employee_id) →
  select_attendance (Some employee_id) None db = [].
Proof.
  intros Hne Hnone. unfold select_attendance.
  destruct employee_id as [|c s]; [done|]. simpl.
  rewrite filter_none; [done|]. intros a Ha [= Heq]. by apply (Hnone a).
Qed.

(** C3. Deleting an employee.  With an id no employee has, the handler raises
    404 "Employee not found" and the store is as it was.  With the id of an
    employee, it returns nothing, and the store it leaves has lost the
    employee rows of that id and the attendance rows whose [employee_id] is
    that id, and nothing else; the durable store was still the old one after
    the look-up and after each of the two DELETE statements, and became the
    new one at the commit, so that both deletions take effect together; and
    in a store the API can reach, listing the attendance of that id
    afterwards returns no record. *)
Theorem delete_employee_cascade employee_id db :
  (employee_id ∉ Employee.id <$> employees db →
   run (delete_employee employee_id) db =
     (Raise (HTTPException 404 "Employee not found"), db)
   ∧ run_trace (delete_employee employee_id) db = [db])
  ∧ (employee_id ∈ Employee.id <$> employees db →
     let db' :=
       mkDB (filter (λ e, Employee.id e ≠ employee_id) (employees db))
            (filter (λ a, AttendanceRecord.employee_id a ≠ employee_id)
               (attendance db)) in
     run (delete_employee employee_id) db = (Return (), db')
     ∧ run_trace (delete_employee employee_id) db = [db; db; db; db']
     ∧ (reachable db →
        run (get_attendance (Some employee_id) None) db' = (Return [], db'))).
Proof.
  split.
  - intros Hemp.
    assert (select_employee_id employee_id db = []) as Hsel.
    { destruct (select_employee_id employee_id db) eqn:Hs; [done|].
      destruct Hemp. apply select_employee_id_nonempty. by rewrite Hs. }
    split.
    + by rewrite run_delete_employee, Hsel.
    + unfold delete_employee. unfold_handler. by rewrite Hsel.
  - intros Hemp db'. pose proof Hemp as Hsel.
    apply select_employee_id_nonempty in Hsel. split_and!.
    + rewrite run_delete_employee. by destruct (select_employee_id _ db).
    + unfold delete_employee. unfold_handler.
      by destruct (select_employee_id _ db).
    + intros Hok%reachable_store_ok. rewrite run_get_attendance.
      rewrite (select_attendance_none employee_id); [done| |].
      * apply list_elem_of_fmap in Hemp as (e & -> & He).
        by apply (employees_id_nonempty _ Hok).
      * by intros a [Ha _]%list_elem_of_filter.
Qed.

(** C10. An [employee_id] or [date] query parameter given as the empty string
    filters nothing: the request returns what it returns without that
    parameter.  With [employee_id=""] and no date it returns every attendance
    record. *)
Theorem get_attendance_empty_parameter employee_id date db :
  run (get_attendance (Some "") date) db = run (get_attendance None date) db
  ∧ run (get_attendance employee_id (Some "")) db
      = run (get_attendance employee_id None) db
  ∧ ∃ records, run (get_attendance (Some "") None) db = (Return records, db)
               ∧ records ≡ₚ attendance db.
Proof.
  rewrite !run_get_attendance. split_and!; [done..|].
  eexists. split; [done|]. apply merge_sort_Permutation.
Qed.

(** ** Listing attendance *)

Lemma StronglySorted_impl {A} (R1 R2 : relation A) (l : list A) :
  (∀ x y, R1 x y → R2 x y) → StronglySorted R1 l → StronglySorted R2 l.
Proof.
  intros HR. induction 1 as [|x l _ IH Hx]; constructor; [done|].
  eapply Forall_impl; [exact Hx|]. auto.
Qed.

Lemma date_created_at_desc_later_first r1 r2 :
  date_created_at_desc r1 r2 ↔ later_first r1 r2.
Proof.
  unfold date_created_at_desc, later_first, String.ltb.
  destruct (String.compare _ _) eqn:Hcmp.
  - apply String.compare_eq_iff in Hcmp. split; [by right|].
    by intros [?|[_ ?]].
  - split; [by left|done].
  - split; [done|]. intros [?|[Heq _]]; [done|].
    rewrite Heq, string_compare_refl in Hcmp. done.
Qed.

#[global] Instance date_created_at_desc_total : Total date_created_at_desc.
Proof.
  intros r1 r2. unfold date_created_at_desc.
  rewrite (String.compare_antisym (AttendanceRecord.date r2)).
  destruct (String.compare _ _) eqn:Hcmp; simpl; [|by right|by left].
  apply String.compare_eq_iff in Hcmp. apply str_le_total.
Qed.

#[global] Instance date_created_at_desc_trans : Transitive date_created_at_desc.
Proof.
  intros r1 r2 r3. unfold date_created_at_desc.
  destruct (String.compare (AttendanceRecord.date r2) (AttendanceRecord.date r1))
    eqn:H21; [|intros _|done];
    destruct (String.compare (AttendanceRecord.date r3) (AttendanceRecord.date r2))
      eqn:H32; try done.
  - apply String.compare_eq_iff in H21, H32. rewrite H32, H21, string_compare_refl.
    intros. by etrans.
  - apply String.compare_eq_iff in H21. rewrite <- H21, H32. done.
  - apply String.compare_eq_iff in H32. rewrite H32, H21. done.
  - by rewrite (string_compare_lt_trans _ _ _ H32 H21).
Qed.

Lemma select_attendance_spec employee_id date db :
  employee_id ≠ Some "" → date ≠ Some "" →
  select_attendance employee_id date db ≡ₚ
    filter (λ a, filter_matches employee_id (AttendanceRecord.employee_id a)
                 ∧ filter_matches date (AttendanceRecord.date a)) (attendance db).
Proof.
  intros He Hd. unfold select_attendance. rewrite merge_sort_Permutation.
  destruct employee_id as [[|c1 s1]|], date as [[|c2 s2]|]; try done; simpl.
  - rewrite list_filter_filter. erewrite list_filter_iff; [done|].
    intros a. simpl. split; [intros [[= ->] [= ->]]|intros [-> ->]]; done.
  - erewrite list_filter_iff; [done|].
    intros a. simpl. split; [intros [= ->]|intros [-> _]]; done.
  - erewrite list_filter_iff; [done|].
    intros a. simpl. split; [intros [= ->]|intros [_ ->]]; done.
  - by rewrite filter_all.
Qed.

(** C7. Listing attendance with any combination of the two filters, each
    either absent or a non-empty string, returns the attendance records whose
    [employee_id] equals the employee filter when there is one and whose
    [date] equals the date filter when there is one, each as often as it is in
    the table and no other; a record comes before every record with an
    earlier date, and before every record of the same date whose
    [created_at] is not later. *)
Theorem get_attendance_filters employee_id date db :
  employee_id ≠ Some "" → date ≠ Some "" →
  ∃ records,
    run (get_attendance employee_id date) db = (Return records, db)
    ∧ records ≡ₚ
        filter (λ a, filter_matches employee_id (AttendanceRecord.employee_id a)
                     ∧ filter_matches date (AttendanceRecord.date a)) (attendance db)
    ∧ StronglySorted later_first records.
Proof.
  intros He Hd. eexists. split; [apply run_get_attendance|]. split.
  - by apply select_attendance_spec.
  - apply (StronglySorted_impl date_created_at_desc).
    + intros r1 r2. apply date_created_at_desc_later_first.
    + apply StronglySorted_merge_sort; apply _.
Qed.

(** ** The attendance summary of the employees *)

Section group_by.
Context {A R K : Type} `{EqDecision K}.
Implicit Types (l : list A) (g : A → list R) (f : A → K) (key : R → K).

Lemma bind_singleton {B} (h : A → B) l : l ≫= (λ x, [h x]) = h <$> l.
Proof. induction l as [|x l IH]; [done|]. by rewrite bind_cons, IH. Qed.

Lemma filter_bind (P : R → Prop) (Q : A → Prop)
    `{!∀ r, Decision (P r)} `{!∀ x, Decision (Q x)} g l :
  (∀ x r, r ∈ g x → P r ↔ Q x) →
  filter P (l ≫= g) = filter Q l ≫= g.
Proof.
  intros HPQ. induction l as [|x l IH]; [done|].
  rewrite bind_cons, filter_app, IH, filter_cons. case_decide as HQ.
  - rewrite bind_cons. f_equal. apply filter_all. intros r Hr. by apply (HPQ x).
  - rewrite filter_none; [done|]. intros r Hr HP. by apply HQ, (HPQ x r).
Qed.

Lemma remove_dups_run (ks : list K) (k : K) (rest : list K) :
  ks ≠ [] → (∀ k', k' ∈ ks → k' = k) → k ∉ rest →
  remove_dups (ks ++ rest) = k :: remove_dups rest.
Proof.
  induction ks as [|k1 ks IH]; intros Hne Hall Hrest; [done|].
  assert (k1 = k) as -> by (apply Hall; left). simpl.
  destruct ks as [|k2 ks]; simpl.
  - by match goal with |- context [if ?d is left _ then _ else _] => destruct d end.
  - assert (k2 = k) as -> by (apply Hall; right; left).
    match goal with
    | |- context [if ?d is left _ then _ else _] => destruct d as [_|Hk]
    end; [|destruct Hk; left].
    apply IH; [done| |done]. intros k' Hk'. apply Hall. by right.
Qed.

Lemma remove_dups_bind f key g l :
  NoDup (f <$> l) → (∀ x, g x ≠ []) → (∀ x r, r ∈ g x → key r = f x) →
  remove_dups (key <$> (l ≫= g)) = f <$> l.
Proof.
  intros Hl Hg Hkey. induction l as [|x l IH]; [done|].
  rewrite fmap_cons in Hl. apply NoDup_cons in Hl as [Hx Hl].
  rewrite bind_cons, fmap_app, fmap_cons.
  rewrite (remove_dups_run _ (f x)); [by rewrite IH| | |].
  - intros Hnil%fmap_nil_inv. by apply (Hg x).
  - intros k (r & -> & Hr)%list_elem_of_fmap. by apply Hkey.
  - intros (r & Hr & (y & Hry & Hy)%list_elem_of_bind)%list_elem_of_fmap.
    apply Hx. rewrite Hr, (Hkey y r Hry). by apply list_elem_of_fmap_2.
Qed.

(** Grouping the rows that the elements of [l] contribute by a key that is
    unique in [l] gives back the contribution of each element. *)
Lemma group_by_bind f key g l :
  NoDup (f <$> l) → (∀ x, g x ≠ []) → (∀ x r, r ∈ g x → key r = f x) →
  group_by key (l ≫= g) = g <$> l.
Proof.
  intros Hl Hg Hkey. unfold group_by.
  rewrite (remove_dups_bind f) by done.
  rewrite <- list_fmap_compose. apply list_fmap_ext. intros i x Hx. simpl.
  rewrite (filter_bind _ (λ y, f y = f x)).
  - rewrite (filter_unique f) by eauto using list_elem_of_lookup_2.
    rewrite bind_cons. apply app_nil_r.
  - intros y r Hr. by rewrite (Hkey y r Hr).
Qed.
End group_by.

Section summary.
Variable db : DB.

Local Abbreviation summary_of :=
  (λ e, with_attendance (days Present (Employee.id e) db)
          (days Absent (Employee.id e) db) e).

Lemma join_employee_fst e r : r ∈ join_employee (attendance db) e → r.1 = e.
Proof.
  unfold join_employee. destruct (filter _ _) as [|a m].
  - by intros ->%list_elem_of_singleton.
  - by intros (a' & -> & _)%list_elem_of_fmap.
Qed.

Lemma join_employee_nonempty e : join_employee (attendance db) e ≠ [].
Proof. unfold join_employee. by destruct (filter _ _). Qed.

Lemma sum_CASE_status s e (m : list AttendanceRecord.t) :
  sum_list (CASE_status s <$> ((λ a, (e, Some a)) <$> m)) =
    length (filter (λ a, AttendanceRecord.status a = s) m).
Proof.
  induction m as [|a m IH]; [done|].
  rewrite !fmap_cons, filter_cons. simpl. unfold CASE_status at 1. simpl.
  rewrite IH. by case_decide.
Qed.

Lemma sum_CASE_status_join s e :
  COALESCE (SUM (CASE_status s <$> join_employee (attendance db) e)) 0 =
    days s (Employee.id e) db.
Proof.
  unfold days.
  rewrite <- (list_filter_filter_r
                (λ a, AttendanceRecord.status a = s)
                (λ a, AttendanceRecord.employee_id a = Employee.id e
                      ∧ AttendanceRecord.status a = s)) by (by intros a [_ ?]).
  rewrite list_filter_filter.
  rewrite (list_filter_iff _ (λ a, AttendanceRecord.status a = s
                                   ∧ Employee.id e = AttendanceRecord.employee_id a))
    by (intros a; split; [by intros [? [? ?]]|by intros [? ?]]).
  rewrite <- list_filter_filter. unfold join_employee.
  destruct (filter (λ a, Employee.id e = _) _) as [|a m]; [done|].
  rewrite <- sum_CASE_status with (e := e). by rewrite fmap_cons.
Qed.

Lemma summary_row_join e :
  summary_row (join_employee (attendance db) e) = [summary_of e].
Proof.
  unfold summary_row. rewrite !sum_CASE_status_join.
  destruct (join_employee (attendance db) e) as [|[e' o] g] eqn:Hg.
  - by destruct (join_employee_nonempty e).
  - assert (e' = e) as ->; [|done].
    apply (join_employee_fst e (e', o)). rewrite Hg. left.
Qed.

Lemma group_summary (es : list Employee.t) :
  NoDup (Employee.id <$> es) →
  group_by (λ r : JoinedRow, Employee.id r.1) (left_join es (attendance db))
    ≫= summary_row = summary_of <$> es.
Proof.
  intros Hes. unfold left_join.
  rewrite (group_by_bind Employee.id); [|done|apply join_employee_nonempty|].
  - rewrite list_fmap_bind, <- bind_singleton.
    induction es as [|e es' IH]; [done|].
    rewrite !bind_cons. simpl. rewrite summary_row_join. f_equal.
    apply IH. rewrite fmap_cons in Hes. by apply NoDup_cons in Hes as [_ ?].
  - intros e r Hr. by rewrite (join_employee_fst e r Hr).
Qed.

Lemma select_employees_summary_perm :
  store_ok db →
  select_employees_summary db ≡ₚ summary_of <$> employees db.
Proof.
  intros Hok. unfold select_employees_summary.
  rewrite merge_sort_Permutation. by rewrite group_summary by apply Hok.
Qed.

Lemma select_employee_summary_found e :
  store_ok db → e ∈ employees db →
  select_employee_summary (Employee.id e) db = [summary_of e].
Proof.
  intros Hok He. unfold select_employee_summary, left_join.
  rewrite (filter_bind _ (λ e', Employee.id e' = Employee.id e)).
  - rewrite (filter_unique Employee.id) by (done || apply Hok).
    rewrite (group_by_bind Employee.id).
    + simpl. by rewrite summary_row_join.
    + apply NoDup_singleton.
    + apply join_employee_nonempty.
    + intros e' r Hr. by rewrite (join_employee_fst e' r Hr).
  - intros e' r Hr. by rewrite (join_employee_fst e' r Hr).
Qed.

(** Every attendance row is counted for exactly one employee. *)
Lemma sum_indicator (P : Prop) `{!Decision P} (k : string) (es : list Employee.t) :
  NoDup (Employee.id <$> es) → k ∈ Employee.id <$> es →
  sum_list ((λ e, if decide (k = Employee.id e ∧ P) then 1 else 0) <$> es) =
    if decide P then 1 else 0.
Proof.
  induction es as [|e es' IH]; [by intros _ ?%elem_of_nil|].
  rewrite !fmap_cons, NoDup_cons, elem_of_cons. intros [Hnotin Hnodup] Hk.
  simpl. destruct (decide (k = Employee.id e)) as [->|Hne].
  - rewrite (sum_list_fmap_same 0).
    + rewrite Nat.mul_0_r, Nat.add_0_r.
      destruct (decide P) as [HP|HP]; [by rewrite decide_True|].
      rewrite decide_False; [done|]. by intros [_ ?].
    + apply Forall_forall. intros e' He'. rewrite decide_False; [done|].
      intros [Heq _]. apply Hnotin. rewrite Heq. by apply list_elem_of_fmap_2.
  - destruct Hk as [?|Hk]; [done|]. rewrite IH by done.
    rewrite decide_False; [done|]. by intros [? _].
Qed.

Lemma sum_list_fmap_plus {A} (f g : A → nat) (l : list A) :
  sum_list ((λ x, f x + g x) <$> l) = sum_list (f <$> l) + sum_list (g <$> l).
Proof.
  induction l as [|x l IH]; [done|].
  rewrite !fmap_cons. cbn [sum_list_with]. rewrite IH. unfold id. lia.
Qed.

Lemma sum_days (P : AttendanceRecord.t → Prop) `{!∀ a, Decision (P a)}
    (es : list Employee.t) (ats : list AttendanceRecord.t) :
  NoDup (Employee.id <$> es) →
  (∀ a, a ∈ ats → AttendanceRecord.employee_id a ∈ Employee.id <$> es) →
  sum_list ((λ e, length (filter (λ a, AttendanceRecord.employee_id a = Employee.id e
                                       ∧ P a) ats)) <$> es) =
    length (filter P ats).
Proof.
  intros Hes. induction ats as [|a ats IH]; intros Hfk.
  - simpl. by rewrite sum_list_fmap_const, Nat.mul_0_r.
  - erewrite list_fmap_ext.
    2:{ intros i e _. rewrite filter_cons.
        instantiate (1 := λ e, (if decide (AttendanceRecord.employee_id a = Employee.id e
                                           ∧ P a) then 1 else 0)
                               + length (filter (λ a, AttendanceRecord.employee_id a
                                                      = Employee.id e ∧ P a) ats)).
        simpl. by case_decide. }
    rewrite sum_list_fmap_plus, IH by (intros a' Ha'; apply Hfk; by right).
    rewrite sum_indicator by (done || apply Hfk; left).
    rewrite filter_cons. by case_decide.
Qed.

Lemma sum_days_status s :
  store_ok db →
  sum_list ((λ e, days s (Employee.id e) db) <$> employees db) = count_attendance s db.
Proof.
  intros Hok. unfold days, count_attendance.
  apply (sum_days (λ a, AttendanceRecord.status a = s)); apply Hok.
Qed.
End summary.

#[global] Instance created_at_desc_total : Total created_at_desc.
Proof. intros r1 r2. unfold created_at_desc. destruct (str_le_total
  (EmployeeWithAttendance.created_at r2) (EmployeeWithAttendance.created_at r1)); auto.
Qed.

#[global] Instance created_at_desc_trans : Transitive created_at_desc.
Proof. intros r1 r2 r3. unfold created_at_desc. intros. by etrans. Qed.

Lemma days_zero s employee_id db :
  (∀ a, a ∈ attendance db → AttendanceRecord.employee_id a ≠ employee_id) →
  days s employee_id db = 0.
Proof.
  intros Hnone. unfold days. rewrite filter_none; [done|].
  intros a Ha [Heq _]. by apply (Hnone a).
Qed.

Lemma create_employee_fresh uuid4 now employee created db db' :
  store_ok db →
  run (create_employee uuid4 now employee) db = (Return created, db') →
  store_ok db' ∧ created ∈ employees db'
  ∧ ∀ a, a ∈ attendance db' → AttendanceRecord.employee_id a ≠ Employee.id created.
Proof.
  intros Hok Hrun.
  pose proof (store_ok_serve db (POST_employees uuid4 now employee) Hok) as Hok'.
  simpl in Hok'. rewrite Hrun in Hok'. split; [done|].
  rewrite run_create_employee in Hrun.
  destruct (select_id_by_employee_id _ db); [|done].
  destruct (select_id_by_email _ db); [|done].
  simpl in Hrun. unfold insert_employee in Hrun. case_decide as Hdup; [done|].
  injection Hrun as <- <-. simpl. split.
  - apply elem_of_app. right. left.
  - intros a Ha Heq. apply Hdup. left. simpl. rewrite <- Heq.
    by apply (attendance_fk _ Hok).
Qed.

(** C5. In every store the API can reach, [total_present] of the dashboard is
    the sum of [present_days] over the rows the list of employees returns, and
    [total_absent] is the sum of their [absent_days]. *)
Theorem dashboard_totals today db :
  reachable db →
  ∃ stats rows,
    run (get_dashboard_stats today) db = (Return stats, db)
    ∧ run get_employees db = (Return rows, db)
    ∧ DashboardStats.total_present stats
        = sum_list (EmployeeWithAttendance.present_days <$> rows)
    ∧ DashboardStats.total_absent stats
        = sum_list (EmployeeWithAttendance.absent_days <$> rows).
Proof.
  intros Hok%reachable_store_ok. eexists _, _.
  split; [apply run_get_dashboard_stats|]. split; [apply run_get_employees|].
  simpl. rewrite !select_employees_summary_perm by done.
  rewrite <- !list_fmap_compose. simpl. unfold compose. simpl.
  by rewrite <- !sum_days_status.
Qed.

(** C6. In every store the API can reach, the list of employees returns each
    employee row once and nothing else, each with the number of its Present
    and of its Absent attendance records; an employee without attendance
    records is in the list with both counts zero; a row comes before every
    row whose [created_at] is not later.  And an employee that a request has
    just created is returned by the look-up of its id with both counts
    zero. *)
Theorem get_employees_summary db :
  reachable db →
  ∃ rows,
    run get_employees db = (Return rows, db)
    ∧ to_employee <$> rows ≡ₚ employees db
    ∧ (∀ r, r ∈ rows →
         EmployeeWithAttendance.present_days r
           = days Present (EmployeeWithAttendance.id r) db
         ∧ EmployeeWithAttendance.absent_days r
             = days Absent (EmployeeWithAttendance.id r) db)
    ∧ (∀ e, e ∈ employees db →
         (∀ a, a ∈ attendance db → AttendanceRecord.employee_id a ≠ Employee.id e) →
         with_attendance 0 0 e ∈ rows)
    ∧ StronglySorted
        (λ r1 r2, str_le (EmployeeWithAttendance.created_at r2)
                    (EmployeeWithAttendance.created_at r1)) rows
    ∧ (∀ uuid4 now employee created db',
         run (create_employee uuid4 now employee) db = (Return created, db') →
         run (get_employee (Employee.id created)) db'
           = (Return (with_attendance 0 0 created), db')).
Proof.
  intros Hok%reachable_store_ok. eexists. split; [apply run_get_employees|].
  pose proof (select_employees_summary_perm db Hok) as Hperm. split_and!.
  - rewrite Hperm, <- list_fmap_compose.
    rewrite <- (list_fmap_id (employees db)) at 2.
    erewrite list_fmap_ext; [done|]. by intros _ [] _.
  - intros r Hr. rewrite Hperm in Hr.
    by apply list_elem_of_fmap in Hr as (e & -> & _).
  - intros e He Hnone. rewrite Hperm. apply list_elem_of_fmap.
    exists e. split; [|done]. by rewrite !days_zero.
  - apply (StronglySorted_merge_sort created_at_desc).
  - intros uuid4 now employee created db' Hrun.
    destruct (create_employee_fresh _ _ _ _ _ _ Hok Hrun) as (Hok' & Hin & Hnone).
    rewrite run_get_employee, select_employee_summary_found by done.
    by rewrite !days_zero.
Qed.

(** * Further properties of the handlers *)

(** ** Looking an employee up *)

Lemma select_employee_summary_missing employee_id db :
  employee_id ∉ Employee.id <$> employees db →
  select_employee_summary employee_id db = [].
Proof.
  intros Hid. unfold select_employee_summary, left_join.
  rewrite (filter_bind _ (λ e, Employee.id e = employee_id)).
  - rewrite filter_none; [done|]. intros e He Heq. apply Hid.
    rewrite <- Heq. by apply list_elem_of_fmap_2.
  - intros e r Hr. by rewrite (join_employee_fst db e r Hr).
Qed.

(** X1. Looking an employee up by an id no employee has raises 404 "Employee
    not found".  In a store the API can reach, looking up the id of an
    employee returns the very row the list of employees has for it: the
    fields of that employee and its two counts. *)
Theorem get_employee_agrees_with_list db :
  reachable db →
  (∀ employee_id, employee_id ∉ Employee.id <$> employees db →
     run (get_employee employee_id) db =
       (Raise (HTTPException 404 "Employee not found"), db))
  ∧ (∀ e, e ∈ employees db →
       ∃ r rows,
         run (get_employee (Employee.id e)) db = (Return r, db)
         ∧ run get_employees db = (Return rows, db)
         ∧ r ∈ rows
         ∧ to_employee r = e
         ∧ EmployeeWithAttendance.present_days r = days Present (Employee.id e) db
         ∧ EmployeeWithAttendance.absent_days r = days Absent (Employee.id e) db).
Proof.
  intros Hok%reachable_store_ok. split.
  - intros employee_id Hid.
    by rewrite run_get_employee, select_employee_summary_missing.
  - intros e He. eexists _, _.
    rewrite run_get_employee, select_employee_summary_found by done.
    split; [done|]. split; [apply run_get_employees|]. split_and!; try done.
    + rewrite select_employees_summary_perm by done.
      apply list_elem_of_fmap. by exists e.
    + by destruct e.
Qed.

(** X2. The four GET handlers write nothing: whatever they return or raise,
    the store after the request is the store before it, and so is the durable
    store after every statement they execute. *)
Theorem get_handlers_read_only today employee_id filter_id filter_date db :
  ((run get_employees db).2 = db
   ∧ Forall (λ s, s = db) (run_trace get_employees db))
  ∧ ((run (get_employee employee_id) db).2 = db
     ∧ Forall (λ s, s = db) (run_trace (get_employee employee_id) db))
  ∧ ((run (get_attendance filter_id filter_date) db).2 = db
     ∧ Forall (λ s, s = db) (run_trace (get_attendance filter_id filter_date) db))
  ∧ ((run (get_dashboard_stats today) db).2 = db
     ∧ Forall (λ s, s = db) (run_trace (get_dashboard_stats today) db)).
Proof.
  split_and!; try (by rewrite ?run_get_employee, ?run_get_attendance).
  - by repeat constructor.
  - unfold get_employee. unfold_handler.
    destruct (select_employee_summary employee_id db); by repeat constructor.
  - by repeat constructor.
  - by repeat constructor.
Qed.

(** ** Deleting an attendance record *)

Lemma select_attendance_by_id_nil record_id db :
  select_attendance_by_id record_id db = []
  ↔ record_id ∉ AttendanceRecord.id <$> attendance db.
Proof.
  unfold select_attendance_by_id. rewrite select_nil, list_elem_of_fmap. split.
  - intros Hnone (a & -> & Ha). by apply (Hnone a).
  - intros Hnone a Ha Heq. apply Hnone. eauto.
Qed.

Lemma filter_remove_unique {A B} (f : A → B) `{EqDecision B} (l1 : list A) x l2 :
  NoDup (f <$> (l1 ++ x :: l2)) →
  filter (λ y, f y ≠ f x) (l1 ++ x :: l2) = l1 ++ l2.
Proof.
  intros [Hl1 Hl2]%NoDup_fmap_split.
  rewrite filter_app, filter_cons_False by (intros Hne; by apply Hne).
  by rewrite !filter_all.
Qed.

(** X3. Deleting an attendance record.  With an id no record has, the handler
    raises 404 "Attendance record not found" and the store is as it was.  With
    the id of a record, in a store the API can reach, it returns nothing and
    the table afterwards is the same list without that one row; the employees
    are untouched, and the durable store changes at the commit only. *)
Theorem delete_attendance_removes_one record_id db :
  reachable db →
  (record_id ∉ AttendanceRecord.id <$> attendance db →
   run (delete_attendance record_id) db =
     (Raise (HTTPException 404 "Attendance record not found"), db))
  ∧ (∀ rows1 r rows2,
       attendance db = rows1 ++ r :: rows2 →
       AttendanceRecord.id r = record_id →
       let db' := mkDB (employees db) (rows1 ++ rows2) in
       run (delete_attendance record_id) db = (Return (), db')
       ∧ run_trace (delete_attendance record_id) db = [db; db; db']).
Proof.
  intros Hok%reachable_store_ok. split.
  - intros Hid%select_attendance_by_id_nil.
    by rewrite run_delete_attendance, Hid.
  - intros rows1 r rows2 Hrows <- db'.
    assert (select_attendance_by_id (AttendanceRecord.id r) db ≠ []) as Hsel.
    { rewrite select_attendance_by_id_nil. intros Hnotin. apply Hnotin.
      apply list_elem_of_fmap_2. rewrite Hrows, elem_of_app. right. left. }
    assert (filter (λ a, AttendanceRecord.id a ≠ AttendanceRecord.id r) (attendance db)
            = rows1 ++ rows2) as Hfilter.
    { rewrite Hrows. apply (filter_remove_unique AttendanceRecord.id).
      rewrite <- Hrows. apply Hok. }
    split.
    + rewrite run_delete_attendance.
      destruct (select_attendance_by_id _ db); [done|]. by rewrite Hfilter.
    + unfold delete_attendance. unfold_handler.
      destruct (select_attendance_by_id _ db); [done|]. simpl.
      unfold db'. by rewrite Hfilter.
Qed.

(** ** Undoing a request *)

Lemma filter_snoc_fresh {A B} (f : A → B) `{EqDecision B} (l : list A) x :
  f x ∉ f <$> l → filter (λ y, f y ≠ f x) (l ++ [x]) = l.
Proof.
  intros Hx. rewrite filter_app, filter_cons_False by (intros Hne; by apply Hne).
  rewrite filter_all, filter_nil; [apply app_nil_r|].
  intros y Hy Heq. apply Hx. rewrite <- Heq. by apply list_elem_of_fmap_2.
Qed.

(** X4. A new attendance record can be taken back: when marking attendance
    inserted a record (there was none for the pair, and [uuid4()] was not
    taken), deleting the record by the id the request returned gives back the
    store exactly as it was before the mark. *)
Theorem mark_then_delete_attendance uuid4 now a db :
  AttendanceCreate.employee_id a ∈ Employee.id <$> employees db →
  (AttendanceCreate.employee_id a, AttendanceCreate.date a)
    ∉ attendance_key <$> attendance db →
  str_UUID uuid4 ∉ AttendanceRecord.id <$> attendance db →
  ∃ r db1,
    run (mark_attendance uuid4 now a) db = (Return r, db1)
    ∧ run (delete_attendance (AttendanceRecord.id r)) db1 = (Return (), db).
Proof.
  intros Hemp Hkey Hfresh. eexists _, _.
  split; [by apply mark_attendance_new|].
  rewrite run_delete_attendance.
  destruct (select_attendance_by_id _ _) eqn:Hsel.
  - apply select_attendance_by_id_nil in Hsel. destruct Hsel.
    cbn [attendance]. rewrite fmap_app. apply elem_of_app. right. left.
  - cbn [employees attendance].
    rewrite (filter_snoc_fresh AttendanceRecord.id) by done.
    by destruct db.
Qed.

(** X5. A new employee can be taken back: in a store the API can reach, when a
    creation succeeded, deleting the employee by the id the request returned
    gives back the store exactly as it was before the creation. *)
Theorem create_then_delete_employee uuid4 now employee created db db1 :
  reachable db →
  run (create_employee uuid4 now employee) db = (Return created, db1) →
  run (delete_employee (Employee.id created)) db1 = (Return (), db).
Proof.
  intros Hok%reachable_store_ok Hrun.
  rewrite run_create_employee in Hrun.
  destruct (select_id_by_employee_id _ db); [|done].
  destruct (select_id_by_email _ db); [|done].
  simpl in Hrun. unfold insert_employee in Hrun. case_decide as Hdup; [done|].
  injection Hrun as <- <-. simpl in Hdup.
  rewrite run_delete_employee.
  destruct (select_employee_id _ _) eqn:Hsel.
  - exfalso. revert Hsel. apply select_employee_id_nonempty.
    cbn [employees]. rewrite fmap_app. apply elem_of_app. right. left.
  - cbn [employees attendance].
    rewrite (filter_snoc_fresh Employee.id) by tauto.
    rewrite filter_all; [by destruct db|].
    intros a Ha Heq. apply Hdup. left. simpl in Heq. rewrite <- Heq.
    by apply (attendance_fk _ Hok).
Qed.

(** ** Creating employees, again *)

(** X6. Creating an employee succeeds when its [employee_id] is that of no
    employee, its e-mail is that of no employee up to the case of the letters
    [A-Z] (the check of the handler, made with SQLite's [LOWER]), the e-mail
    as Python's [lower()] returns it is not stored (the UNIQUE constraint of
    the table) and [uuid4()] is not a taken id: the handler returns the new
    row, with that lower-cased e-mail, and appends it to the table, the
    attendance is untouched, and the durable store changes at the commit
    only. *)
Theorem create_employee_succeeds uuid4 now employee db :
  EmployeeCreate.employee_id employee ∉ Employee.employee_id <$> employees db →
  lower (EmployeeCreate.email employee)
    ∉ (λ e, lower (Employee.email e)) <$> employees db →
  str_lower (EmployeeCreate.email employee) ∉ Employee.email <$> employees db →
  str_UUID uuid4 ∉ Employee.id <$> employees db →
  let row := Employee.mk (str_UUID uuid4) (EmployeeCreate.employee_id employee)
               (EmployeeCreate.full_name employee)
               (str_lower (EmployeeCreate.email employee))
               (EmployeeCreate.department employee) now in
  let db' := mkDB (employees db ++ [row]) (attendance db) in
  run (create_employee uuid4 now employee) db = (Return row, db')
  ∧ run_trace (create_employee uuid4 now employee) db = [db; db; db; db'].
Proof.
  intros Hid Hemail Hstored Hfresh row db'.
  pose proof Hid as Hsel1. apply select_id_by_employee_id_nil in Hsel1.
  pose proof Hemail as Hsel2. apply select_id_by_email_nil in Hsel2.
  assert (insert_employee row db = Some db') as Hinsert.
  { unfold insert_employee. rewrite decide_False; [done|].
    by intros [?|[?|?]]. }
  unfold row in *. clear row. split.
  - rewrite run_create_employee, Hsel1, Hsel2. cbv zeta. by rewrite Hinsert.
  - unfold create_employee. unfold_handler. rewrite Hsel1. simpl.
    rewrite Hsel2. simpl. by rewrite Hinsert.
Qed.

(** X7. Once an employee has been created, a second creation with the same
    [employee_id] raises 400 "An employee with this Employee ID already
    exists" whatever its other fields, and one with a new [employee_id] and
    an e-mail that is the one stored for the first up to the case of the
    letters [A-Z] raises 400 "An employee with this email already exists";
    either leaves the store as the first creation left it. *)
Theorem create_employee_twice uuid4 now employee created db db1 uuid4' now' employee' :
  run (create_employee uuid4 now employee) db = (Return created, db1) →
  (EmployeeCreate.employee_id employee' = EmployeeCreate.employee_id employee →
   run (create_employee uuid4' now' employee') db1 =
     (Raise (HTTPException 400 "An employee with this Employee ID already exists"),
      db1))
  ∧ (EmployeeCreate.employee_id employee' ∉ Employee.employee_id <$> employees db1 →
     lower (EmployeeCreate.email employee') = lower (Employee.email created) →
     run (create_employee uuid4' now' employee') db1 =
       (Raise (HTTPException 400 "An employee with this email already exists"), db1)).
Proof.
  intros Hrun. rewrite run_create_employee in Hrun.
  destruct (select_id_by_employee_id _ db); [|done].
  destruct (select_id_by_email _ db); [|done].
  simpl in Hrun. unfold insert_employee in Hrun. case_decide; [done|].
  injection Hrun as <- <-. rewrite run_create_employee. split.
  - intros Heq.
    destruct (select_id_by_employee_id _ _) eqn:Hsel; [|done].
    apply select_id_by_employee_id_nil in Hsel. destruct Hsel.
    cbn [employees]. rewrite fmap_app, Heq. apply elem_of_app. right. left.
  - intros Hid%select_id_by_employee_id_nil Heq. rewrite Hid.
    destruct (select_id_by_email _ _) eqn:Hsel; [|done].
    apply select_id_by_email_nil in Hsel. destruct Hsel.
    cbn [employees]. rewrite fmap_app, Heq. apply elem_of_app. right. left.
Qed.

(** ** After an employee is deleted *)

(** X8. Once an employee has been deleted, its id is unknown to the API:
    deleting it again, looking it up and marking attendance for it each raise
    404 "Employee not found" and leave the store as it is. *)
Theorem delete_employee_then_not_found employee_id db db1 :
  run (delete_employee employee_id) db = (Return (), db1) →
  run (delete_employee employee_id) db1 =
    (Raise (HTTPException 404 "Employee not found"), db1)
  ∧ run (get_employee employee_id) db1 =
      (Raise (HTTPException 404 "Employee not found"), db1)
  ∧ ∀ uuid4 now a,
      AttendanceCreate.employee_id a = employee_id →
      run (mark_attendance uuid4 now a) db1 =
        (Raise (HTTPException 404 "Employee not found"), db1).
Proof.
  intros Hrun. rewrite run_delete_employee in Hrun.
  destruct (select_employee_id employee_id db); [done|].
  injection Hrun as <-.
  set (db1 := mkDB _ _).
  assert (employee_id ∉ Employee.id <$> employees db1) as Hgone.
  { intros (e & -> & [Hne _]%list_elem_of_filter)%list_elem_of_fmap. done. }
  split_and!.
  - rewrite run_delete_employee.
    destruct (select_employee_id employee_id db1) eqn:Hsel; [done|].
    destruct Hgone. apply select_employee_id_nonempty. by rewrite Hsel.
  - by rewrite run_get_employee, select_employee_summary_missing.
  - intros uuid4 now a <-. by apply mark_attendance_not_found.
Qed.

(** ** Attendance of one employee on one date *)

Lemma merge_sort_singleton {A} (R : relation A) `{!∀ x y, Decision (R x y)} (x : A) :
  merge_sort R [x] = [x].
Proof. done. Qed.

Lemma select_attendance_both employee_id date db :
  employee_id ≠ "" → date ≠ "" →
  select_attendance (Some employee_id) (Some date) db =
    merge_sort date_created_at_desc
      (filter (λ a, attendance_key a = (employee_id, date)) (attendance db)).
Proof.
  intros He Hd. unfold select_attendance.
  destruct employee_id as [|c1 s1], date as [|c2 s2]; try done. simpl.
  rewrite list_filter_filter. f_equal. apply list_filter_iff.
  intros a. unfold attendance_key. split.
  - by intros [[= ->] [= ->]].
  - by intros [= -> ->].
Qed.

Lemma select_attendance_both_found employee_id date db r :
  store_ok db → employee_id ≠ "" → date ≠ "" →
  r ∈ attendance db → attendance_key r = (employee_id, date) →
  select_attendance (Some employee_id) (Some date) db = [r].
Proof.
  intros Hok He Hd Hr Hkey. rewrite select_attendance_both by done.
  rewrite <- Hkey, (filter_unique attendance_key) by (done || apply Hok).
  apply merge_sort_singleton.
Qed.

(** X9. What was marked is what is listed: in a store the API can reach, after
    a mark for an existing employee and a non-empty date has returned a
    record (it does when the pair has a record already or [uuid4()] is not a
    taken id), listing the attendance of that employee on that date returns
    that record and no other. *)
Theorem mark_then_get_attendance uuid4 now a db :
  reachable db →
  AttendanceCreate.employee_id a ∈ Employee.id <$> employees db →
  AttendanceCreate.date a ≠ "" →
  (AttendanceCreate.employee_id a, AttendanceCreate.date a)
    ∈ attendance_key <$> attendance db
  ∨ str_UUID uuid4 ∉ AttendanceRecord.id <$> attendance db →
  ∃ r db1,
    run (mark_attendance uuid4 now a) db = (Return r, db1)
    ∧ run (get_attendance (Some (AttendanceCreate.employee_id a))
             (Some (AttendanceCreate.date a))) db1 = (Return [r], db1).
Proof.
  intros Hok%reachable_store_ok Hemp Hdate Hcase.
  assert (AttendanceCreate.employee_id a ≠ "") as Hid.
  { apply list_elem_of_fmap in Hemp as (e & -> & He).
    by apply (employees_id_nonempty _ Hok). }
  pose proof (store_ok_serve db (POST_attendance uuid4 now a) Hok) as Hok1.
  simpl in Hok1.
  assert (∃ r db1, run (mark_attendance uuid4 now a) db = (Return r, db1)
                   ∧ r ∈ attendance db1
                   ∧ attendance_key r
                     = (AttendanceCreate.employee_id a, AttendanceCreate.date a))
    as (r & db1 & Hrun & Hr & Hkey).
  { destruct (decide ((AttendanceCreate.employee_id a, AttendanceCreate.date a)
                        ∈ attendance_key <$> attendance db)) as [Hin|Hnotin].
    - apply list_elem_of_fmap in Hin as (existing & Hkey & Hin).
      apply list_elem_of_split in Hin as (rows1 & rows2 & Hrows).
      eexists _, _. split; [by eapply mark_attendance_existing|].
      split; [|done]. simpl. apply elem_of_app. right.
      unfold attendance_key in Hkey. injection Hkey as -> ->. left.
    - destruct Hcase as [?|Hfresh]; [done|].
      eexists _, _. split; [by apply mark_attendance_new|].
      split; [|done]. simpl. apply elem_of_app. right. left. }
  exists r, db1. split; [done|]. rewrite Hrun in Hok1. simpl in Hok1.
  by rewrite run_get_attendance, (select_attendance_both_found _ _ _ r).
Qed.

(** X10. In a store the API can reach, listing attendance with both an
    employee filter and a date filter (non-empty strings) returns at most one
    record. *)
Theorem get_attendance_both_filters employee_id date db :
  reachable db → employee_id ≠ "" → date ≠ "" →
  ∃ records,
    run (get_attendance (Some employee_id) (Some date)) db = (Return records, db)
    ∧ length records ≤ 1.
Proof.
  intros Hok%reachable_store_ok He Hd. eexists.
  split; [apply run_get_attendance|].
  rewrite select_attendance_both by done.
  rewrite (merge_sort_Permutation date_created_at_desc).
  destruct (filter _ _) as [|r rows] eqn:Hf; [simpl; lia|].
  assert (r ∈ filter (λ a, attendance_key a = (employee_id, date)) (attendance db))
    as [Hkey Hr]%list_elem_of_filter by (rewrite Hf; left).
  rewrite <- Hkey, (filter_unique attendance_key) in Hf by (done || apply Hok).
  injection Hf as <-. done.
Qed.

(** ** What holds in every store the API can reach *)




(** ** The dashboard *)

Section counting.
Context {A K : Type} `{EqDecision K} (key : A → K).
Implicit Types (rows : list A) (ks : list K).

Lemma bind_singleton_on {B} (g : K → list B) (h : K → B) ks :
  (∀ k, k ∈ ks → g k = [h k]) → ks ≫= g = h <$> ks.
Proof.
  induction ks as [|k ks IH]; intros Hg; [done|].
  rewrite bind_cons, fmap_cons, (Hg k) by left. simpl. f_equal.
  apply IH. intros k' Hk'. apply Hg. by right.
Qed.

(** The groups of [GROUP BY key] with their sizes: one per distinct key. *)
Lemma group_by_sizes {B} (out : A → B) (h : K → B) rows :
  (∀ r, h (key r) = out r) →
  (group_by key rows ≫= λ g,
     match g with [] => [] | r :: _ => [(out r, length g)] end)
  = (λ k, (h k, length (filter (λ r, key r = k) rows))) <$> remove_dups (key <$> rows).
Proof.
  intros Hout. unfold group_by. rewrite list_fmap_bind.
  apply bind_singleton_on. intros k Hk. simpl.
  apply elem_of_remove_dups, list_elem_of_fmap in Hk as (r & -> & Hr).
  destruct (filter (λ r', key r' = key r) rows) as [|r1 g] eqn:Hf.
  - by apply (filter_nil_not_elem_of _ _ r) in Hf.
  - assert (r1 ∈ filter (λ r', key r' = key r) rows) as [<- _]%list_elem_of_filter
      by (rewrite Hf; left).
    by rewrite Hout.
Qed.

Lemma sum_indicator_key (k0 : K) ks :
  NoDup ks → k0 ∈ ks →
  sum_list ((λ k, if decide (k0 = k) then 1 else 0) <$> ks) = 1.
Proof.
  induction ks as [|k ks IH]; [by intros _ ?%elem_of_nil|].
  rewrite NoDup_cons, elem_of_cons, fmap_cons. intros [Hk Hks] Hin. simpl.
  destruct (decide (k0 = k)) as [->|Hne].
  - rewrite (sum_list_fmap_same 0); [lia|].
    apply Forall_forall. intros k' Hk'. rewrite decide_False; [done|].
    by intros ->.
  - destruct Hin as [?|Hin]; [done|]. by rewrite IH.
Qed.

(** Every row is in the group of exactly one key. *)
Lemma sum_group_sizes rows ks :
  NoDup ks → (∀ r, r ∈ rows → key r ∈ ks) →
  sum_list ((λ k, length (filter (λ r, key r = k) rows)) <$> ks) = length rows.
Proof.
  intros Hks. induction rows as [|r rows IH]; intros Hin.
  - simpl. by rewrite sum_list_fmap_const, Nat.mul_0_r.
  - rewrite (list_fmap_ext _
               (λ k, (if decide (key r = k) then 1 else 0)
                     + length (filter (λ r', key r' = k) rows))).
    + rewrite sum_list_fmap_plus, IH by (intros r' Hr'; apply Hin; by right).
      rewrite sum_indicator_key by (done || apply Hin; left). done.
    + intros i k _. rewrite filter_cons. by case_decide.
Qed.

Lemma length_remove_dups ks : length (remove_dups ks) ≤ length ks.
Proof.
  induction ks as [|k ks IH]; [done|]. simpl.
  match goal with |- context [if ?d is left _ then _ else _] => destruct d end;
    simpl; lia.
Qed.
End counting.

Lemma length_filter_status (P : AttendanceRecord.t → Prop) `{!∀ a, Decision (P a)}
    (rows : list AttendanceRecord.t) :
  length (filter (λ a, P a ∧ AttendanceRecord.status a = Present) rows)
  + length (filter (λ a, P a ∧ AttendanceRecord.status a = Absent) rows)
  = length (filter P rows).
Proof.
  induction rows as [|a rows IH]; [done|].
  rewrite !filter_cons. destruct (decide (P a)) as [HP|HP].
  - destruct (AttendanceRecord.status a) eqn:Hs.
    + rewrite decide_True, decide_False by (by intros [_ ?] || done).
      simpl. lia.
    + rewrite decide_False, decide_True by (by intros [_ ?] || done).
      simpl. lia.
  - rewrite !decide_False by (by intros [? _]). done.
Qed.

Lemma count_attendance_on_le today s db :
  count_attendance_on today s db ≤ count_attendance s db.
Proof.
  unfold count_attendance_on, count_attendance.
  rewrite <- (list_filter_filter_l
                (λ a, AttendanceRecord.date a = today ∧ AttendanceRecord.status a = s)
                (λ a, AttendanceRecord.status a = s)) by (by intros a [_ ?]).
  apply length_filter.
Qed.

#[global] Instance count_desc_total : Total count_desc.
Proof. intros r1 r2. unfold count_desc. lia. Qed.

#[global] Instance count_desc_trans : Transitive count_desc.
Proof. intros r1 r2 r3. unfold count_desc. lia. Qed.

Lemma select_department_counts_perm db :
  select_department_counts db ≡ₚ
    (λ d, (d, length (filter (λ e, Employee.department e = d) (employees db))))
    <$> remove_dups (Employee.department <$> employees db).
Proof.
  unfold select_department_counts. rewrite merge_sort_Permutation.
  by rewrite (group_by_sizes Employee.department Employee.department id).
Qed.

(** X12. The department distribution of the dashboard lists every department
    that has an employee exactly once, each with the number of its employees,
    and no other entry; the counts add up to [total_employees], the number of
    entries is [total_departments], and an entry comes before every entry
    with a smaller count. *)
Theorem dashboard_departments today db :
  ∃ stats,
    run (get_dashboard_stats today) db = (Return stats, db)
    ∧ NoDup (DashboardStats.departments stats).*1
    ∧ (∀ d n, (d, n) ∈ DashboardStats.departments stats
              ↔ d ∈ Employee.department <$> employees db
                ∧ n = length (filter (λ e, Employee.department e = d) (employees db)))
    ∧ sum_list (DashboardStats.departments stats).*2
        = DashboardStats.total_employees stats
    ∧ length (DashboardStats.departments stats)
        = DashboardStats.total_departments stats
    ∧ DashboardStats.total_departments stats ≤ DashboardStats.total_employees stats
    ∧ StronglySorted (λ r1 r2, r2.2 ≤ r1.2) (DashboardStats.departments stats).
Proof.
  eexists. split; [apply run_get_dashboard_stats|]. simpl.
  pose proof (select_department_counts_perm db) as Hperm. split_and!.
  - rewrite Hperm, <- list_fmap_compose.
    rewrite (list_fmap_ext _ id) by done. rewrite list_fmap_id.
    apply NoDup_remove_dups.
  - intros d n. rewrite Hperm, list_elem_of_fmap. split.
    + intros (k & [= -> ->] & Hk). rewrite elem_of_remove_dups in Hk. by split.
    + intros [Hd ->]. exists d. by rewrite elem_of_remove_dups.
  - rewrite Hperm, <- list_fmap_compose.
    rewrite (list_fmap_ext _
               (λ d, length (filter (λ e, Employee.department e = d) (employees db))))
      by done.
    apply (sum_group_sizes Employee.department); [apply NoDup_remove_dups|].
    intros e He. by apply elem_of_remove_dups, list_elem_of_fmap_2.
  - by rewrite Hperm, length_fmap.
  - rewrite <- (length_fmap Employee.department (employees db)).
    apply length_remove_dups.
  - apply (StronglySorted_merge_sort count_desc).
Qed.

(** X13. The attendance counters of the dashboard agree with the listing of
    attendance, in a store the API can reach and for a non-empty [today]:
    [total_employees] is the number of rows the list of employees returns;
    [present_today] and [absent_today] add up to the number of records the
    listing returns for the date [today]; [total_present] and [total_absent]
    add up to the number of records it returns without a filter; and the
    counts for today do not exceed the totals. *)
Theorem dashboard_counters today db :
  reachable db → today ≠ "" →
  ∃ stats rows today_records all_records,
    run (get_dashboard_stats today) db = (Return stats, db)
    ∧ run get_employees db = (Return rows, db)
    ∧ run (get_attendance None (Some today)) db = (Return today_records, db)
    ∧ run (get_attendance None None) db = (Return all_records, db)
    ∧ DashboardStats.total_employees stats = length rows
    ∧ DashboardStats.present_today stats + DashboardStats.absent_today stats
        = length today_records
    ∧ DashboardStats.total_present stats + DashboardStats.total_absent stats
        = length all_records
    ∧ DashboardStats.present_today stats ≤ DashboardStats.total_present stats
    ∧ DashboardStats.absent_today stats ≤ DashboardStats.total_absent stats.
Proof.
  intros Hok%reachable_store_ok Htoday. eexists _, _, _, _.
  split; [apply run_get_dashboard_stats|]. split; [apply run_get_employees|].
  split; [apply run_get_attendance|]. split; [apply run_get_attendance|].
  simpl. split_and!.
  - by rewrite select_employees_summary_perm, length_fmap.
  - unfold select_attendance. destruct today as [|c s]; [done|]. simpl.
    rewrite merge_sort_Permutation. unfold count_attendance_on.
    rewrite (length_filter_status (λ a, AttendanceRecord.date a = String c s)).
    f_equal. apply list_filter_iff. intros a. split; [by intros ->|by intros [= ->]].
  - unfold select_attendance. simpl. rewrite merge_sort_Permutation.
    unfold count_attendance.
    rewrite <- (filter_all (λ _, True) (attendance db)) at 3 by done.
    rewrite <- (length_filter_status (λ _, True)).
    f_equal; f_equal; apply list_filter_iff; intros a; tauto.
  - apply count_attendance_on_le.
  - apply count_attendance_on_le.
Qed.

(** ** Validation of the request body of a creation *)

Section validation.
Implicit Types (s v : string) (c : ascii).

(** A text field goes through [Field] and then [not_empty]. *)
Lemma not_empty_Field hi v :
  Field 1 hi v ≫= not_empty =
    if decide (len v = 0 ∨ hi < len v ∨ all_space v = true) then None
    else Some (strip v).
Proof.
  unfold Field, not_empty.
  destruct (decide (len v = 0 ∨ hi < len v ∨ all_space v = true)) as [Hbad|Hgood].
  - case_decide as Hlen; [|done]. simpl. rewrite decide_True; [done|].
    right. apply strip_empty. destruct Hbad as [?|[?|?]]; [lia..|done].
  - rewrite decide_True by lia.
    simpl. rewrite decide_False; [done|].
    intros [->|?%strip_empty]; apply Hgood; right; by right.
Qed.

(** What [not_empty] returns is a fixed point of it, with no white space at
    either end. *)
Lemma not_empty_stripped v w :
  not_empty v = Some w →
  w = strip v ∧ w ≠ "" ∧ no_leading_space w ∧ no_trailing_space w
  ∧ strip w = w ∧ not_empty w = Some w.
Proof.
  unfold not_empty. case_decide as Hempty; [done|]. intros [= <-].
  destruct (strip_spec v) as (_ & _ & _ & _ & _ & Hfirst & Hlast).
  assert (strip v ≠ "") by tauto.
  split_and!; try done; [apply strip_idemp|].
  rewrite strip_idemp, decide_False; [done|tauto].
Qed.
End validation.

(** X14. The body of a creation is refused exactly when one of
    [employee_id], [full_name] and [department] has no character, has more
    characters than its limit (50, 100 and 100, counted before stripping) or
    is made of white-space characters only, or when the validator of
    [EmailStr] refuses the e-mail. *)
Theorem EmployeeCreate_validate_refuses employee_id full_name email department :
  EmployeeCreate_validate employee_id full_name email department = None
  ↔ (len employee_id = 0 ∨ 50 < len employee_id ∨ all_space employee_id = true)
    ∨ (len full_name = 0 ∨ 100 < len full_name ∨ all_space full_name = true)
    ∨ validate_email email = None
    ∨ (len department = 0 ∨ 100 < len department ∨ all_space department = true).
Proof.
  unfold EmployeeCreate_validate. rewrite !not_empty_Field.
  destruct (validate_email email);
    repeat case_decide; simpl; split; try done; intuition congruence.
Qed.

(** X15. What validation accepts is in the form the handler stores: the
    e-mail of an accepted body is the address the validator of [EmailStr]
    returned for the e-mail of the request, and each of its three text
    fields is the field of the request stripped, is not empty, has no more
    characters than its limit, has no white-space character at either end,
    and goes through [not_empty] unchanged. *)
Theorem EmployeeCreate_validate_accepted
    employee_id full_name email department employee :
  EmployeeCreate_validate employee_id full_name email department = Some employee →
  validate_email email = Some (EmployeeCreate.email employee)
  ∧ Forall (λ '(v, w, limit),
              w = strip v ∧ w ≠ "" ∧ len w ≤ limit
              ∧ no_leading_space w ∧ no_trailing_space w
              ∧ not_empty w = Some w)
      [(employee_id, EmployeeCreate.employee_id employee, 50);
       (full_name, EmployeeCreate.full_name employee, 100);
       (department, EmployeeCreate.department employee, 100)].
Proof.
  unfold EmployeeCreate_validate.
  assert (∀ hi v w, Field 1 hi v ≫= not_empty = Some w →
            w = strip v ∧ w ≠ "" ∧ len w ≤ hi
            ∧ no_leading_space w ∧ no_trailing_space w
            ∧ not_empty w = Some w) as Hfield.
  { intros hi v w. unfold Field. case_decide as Hlen; [|done]. simpl.
    intros (-> & ? & ? & ? & ? & ?)%not_empty_stripped.
    pose proof (len_strip v). split_and!; try done. lia. }
  destruct (Field 1 50 employee_id ≫= not_empty) as [i|] eqn:Hi; [|done].
  destruct (Field 1 100 full_name ≫= not_empty) as [n|] eqn:Hn; [|done].
  simpl. destruct (validate_email email) as [e|]; [|done].
  destruct (Field 1 100 department ≫= not_empty) as [d|] eqn:Hd; [|done].
  simpl. intros [= <-]. split; [done|].
  cbn [EmployeeCreate.employee_id EmployeeCreate.full_name
       EmployeeCreate.department].
  apply Hfield in Hi, Hn, Hd.
  repeat (apply Forall_cons_2; [done|]). apply Forall_nil_2.
Qed.

(** ** Requests that fail *)

(** X16. A request that raises writes nothing: whenever one of the handlers
    that can change the store ends in an exception, whichever it is, the
    store is left exactly as it was before the request. *)
Theorem failed_request_writes_nothing db e db' :
  (∀ uuid4 now employee,
     run (create_employee uuid4 now employee) db = (Raise e, db') → db' = db)
  ∧ (∀ employee_id,
       run (delete_employee employee_id) db = (Raise e, db') → db' = db)
  ∧ (∀ uuid4 now a,
       run (mark_attendance uuid4 now a) db = (Raise e, db') → db' = db)
  ∧ (∀ record_id,
       run (delete_attendance record_id) db = (Raise e, db') → db' = db).
Proof.
  split_and!.
  - intros uuid4 now employee. rewrite run_create_employee.
    destruct (select_id_by_employee_id _ db); [|by intros [= _ <-]].
    destruct (select_id_by_email _ db); [|by intros [= _ <-]].
    simpl. destruct (insert_employee _ db); [done|by intros [= _ <-]].
  - intros employee_id. rewrite run_delete_employee.
    destruct (select_employee_id _ db); [by intros [= _ <-]|done].
  - intros uuid4 now a. rewrite run_mark_attendance.
    destruct (select_employee_id _ db); [by intros [= _ <-]|].
    destruct (select_attendance_id _ _ db); [|done].
    simpl. destruct (insert_attendance _ db); [done|by intros [= _ <-]].
  - intros record_id. rewrite run_delete_attendance.
    destruct (select_attendance_by_id _ db); [by intros [= _ <-]|done].
Qed.

(** X17. The look-ups the handlers make before they write leave SQLite
    little to refuse: a creation ends in [IntegrityError] only when [uuid4()]
    is the id of an employee already, or when the e-mail as Python's
    [lower()] returns it is stored already although no stored e-mail is the
    one of the request up to the case of the letters [A-Z]; and a mark only
    when [uuid4()] is the id of an attendance record already. *)
Theorem integrity_error_only_on_constraint uuid4 now db db' :
  (∀ employee,
     run (create_employee uuid4 now employee) db = (Raise IntegrityError, db') →
     str_UUID uuid4 ∈ Employee.id <$> employees db
     ∨ (str_lower (EmployeeCreate.email employee) ∈ Employee.email <$> employees db
        ∧ lower (EmployeeCreate.email employee)
            ∉ (λ e, lower (Employee.email e)) <$> employees db))
  ∧ (∀ a,
       run (mark_attendance uuid4 now a) db = (Raise IntegrityError, db') →
       str_UUID uuid4 ∈ AttendanceRecord.id <$> attendance db).
Proof.
  split.
  - intros employee. rewrite run_create_employee.
    destruct (select_id_by_employee_id _ db) eqn:Hid; [|done].
    destruct (select_id_by_email _ db) eqn:Hemail; [|done].
    apply select_id_by_employee_id_nil in Hid.
    apply select_id_by_email_nil in Hemail.
    simpl. unfold insert_employee. case_decide as Hdup; [|done].
    intros _. simpl in Hdup. tauto.
  - intros a. rewrite run_mark_attendance.
    destruct (select_employee_id _ db); [done|].
    destruct (select_attendance_id _ _ db) eqn:Hsel; [|done].
    rewrite select_attendance_id_filter in Hsel.
    simpl. unfold insert_attendance. case_decide as Hdup; [|done].
    intros _. destruct Hdup as [?|Hkey]; [done|]. exfalso.
    apply list_elem_of_fmap in Hkey as (r & Hkey & Hr).
    rewrite select_nil in Hsel. by apply (Hsel r).
Qed.

(** ** How a write shows in the summaries *)

(** X18. In a store the API can reach, after a creation has succeeded the list
    of employees returns the rows it returned before, with the counts they
    had, and one more: the new employee with both counts zero. *)
Theorem create_then_list uuid4 now employee created db db1 :
  reachable db →
  run (create_employee uuid4 now employee) db = (Return created, db1) →
  ∃ rows rows1,
    run get_employees db = (Return rows, db)
    ∧ run get_employees db1 = (Return rows1, db1)
    ∧ rows1 ≡ₚ with_attendance 0 0 created :: rows.
Proof.
  intros Hok%reachable_store_ok Hrun.
  destruct (create_employee_fresh _ _ _ _ _ _ Hok Hrun) as (Hok1 & _ & Hnone).
  eexists _, _. split; [apply run_get_employees|].
  split; [apply run_get_employees|].
  rewrite !select_employees_summary_perm by done.
  replace (with_attendance 0 0 created)
    with (with_attendance (days Present (Employee.id created) db1)
            (days Absent (Employee.id created) db1) created)
    by (by rewrite !days_zero).
  rewrite run_create_employee in Hrun.
  destruct (select_id_by_employee_id _ db); [|done].
  destruct (select_id_by_email _ db); [|done].
  simpl in Hrun. unfold insert_employee in Hrun. case_decide; [done|].
  injection Hrun as <- <-. cbn [employees].
  rewrite fmap_app. simpl. by rewrite <- Permutation_cons_append.
Qed.

Lemma days_snoc s employee_id employees0 rows row :
  days s employee_id (mkDB employees0 (rows ++ [row])) =
    days s employee_id (mkDB employees0 rows)
    + (if decide (AttendanceRecord.employee_id row = employee_id
                  ∧ AttendanceRecord.status row = s) then 1 else 0).
Proof.
  unfold days. simpl. rewrite filter_app, length_app, filter_cons.
  by case_decide.
Qed.

(** X19. In a store the API can reach, marking a date that an employee has no
    record for (with [uuid4()] not a taken id) adds one to that employee's
    count of the status marked and leaves its other count as it was: the
    look-up of the employee afterwards returns the employee with the counts
    so changed. *)
Theorem mark_new_day_counts uuid4 now date status e db :
  reachable db →
  e ∈ employees db →
  (Employee.id e, date) ∉ attendance_key <$> attendance db →
  str_UUID uuid4 ∉ AttendanceRecord.id <$> attendance db →
  ∃ r db1,
    run (mark_attendance uuid4 now (AttendanceCreate.mk (Employee.id e) date status)) db
      = (Return r, db1)
    ∧ run (get_employee (Employee.id e)) db1 =
        (Return (with_attendance
                   (days Present (Employee.id e) db
                    + (if decide (status = Present) then 1 else 0))
                   (days Absent (Employee.id e) db
                    + (if decide (status = Absent) then 1 else 0)) e), db1).
Proof.
  intros Hok%reachable_store_ok He Hkey Hfresh.
  assert (Employee.id e ∈ Employee.id <$> employees db) as Hid
    by by apply list_elem_of_fmap_2.
  pose proof (store_ok_serve db
                (POST_attendance uuid4 now
                   (AttendanceCreate.mk (Employee.id e) date status)) Hok) as Hok1.
  simpl in Hok1.
  pose proof (mark_attendance_new uuid4 now
                (AttendanceCreate.mk (Employee.id e) date status) db Hid Hkey Hfresh)
    as Hrun.
  simpl in Hrun. rewrite Hrun in Hok1. simpl in Hok1.
  eexists _, _. split; [exact Hrun|].
  rewrite run_get_employee, select_employee_summary_found by done.
  rewrite !days_snoc. simpl. do 3 f_equal.
  - destruct db. simpl. destruct status; by repeat case_decide; try tauto.
  - destruct db. simpl. destruct status; by repeat case_decide; try tauto.
Qed.

End properties.

(** * The properties on the example store *)

#[local] Existing Instance example_runtime.

Ltac by_compute := apply (bool_decide_unpack _); vm_compute; exact I.

Lemma reachable_example_db : reachable example_db.
Proof. by exists example_requests. Qed.

Lemma mark_attendance_upsert_witness :
  (run (mark_attendance 32 "2024-01-15T17:00:00"
          (AttendanceCreate.mk jane_id "2024-01-15" Absent)) example_db).1
    = Return (AttendanceRecord.mk (str_UUID 16) jane_id "2024-01-15" Absent
                "2024-01-15T17:00:00")
  ∧ (run (mark_attendance 32 "2024-01-17T09:00:00"
            (AttendanceCreate.mk jane_id "2024-01-17" Present)) example_db).1
    = Return (AttendanceRecord.mk (str_UUID 32) jane_id "2024-01-17" Present
                "2024-01-17T09:00:00").
Proof.
  split.
  - destruct (mark_attendance_upsert 32 "2024-01-15T17:00:00"
                (AttendanceCreate.mk jane_id "2024-01-15" Absent) example_db
                reachable_example_db) as [Hupdate _]; [by_compute|].
    rewrite (Hupdate []
               (AttendanceRecord.mk (str_UUID 16) jane_id "2024-01-15" Present
                  "2024-01-15T09:30:00")
               (tail (attendance example_db))); reflexivity.
  - destruct (mark_attendance_upsert 32 "2024-01-17T09:00:00"
                (AttendanceCreate.mk jane_id "2024-01-17" Present) example_db
                reachable_example_db) as [_ Hinsert]; [by_compute|].
    rewrite Hinsert; [reflexivity|by_compute..].
Defined.

Lemma mark_attendance_unknown_employee_witness :
  run (mark_attendance 32 "2024-01-15T17:00:00"
         (AttendanceCreate.mk (str_UUID 3) "2024-01-15" Present)) example_db =
    (Raise (HTTPException 404 "Employee not found"), example_db).
Proof.
  apply (mark_attendance_unknown_employee 32 "2024-01-15T17:00:00"
           (AttendanceCreate.mk (str_UUID 3) "2024-01-15" Present) example_db).
  by_compute.
Defined.

Lemma attendance_unique_per_day_witness :
  NoDup (attendance_key <$> attendance example_db)
  ∧ ∃ r,
      filter (λ a, attendance_key a = (ravi_id, "2024-01-20"))
        (attendance
           (serve
              (serve example_db
                 (POST_attendance 48 "2024-01-20T09:00:00"
                    (AttendanceCreate.mk ravi_id "2024-01-20" Present)))
              (POST_attendance 49 "2024-01-20T18:00:00"
                 (AttendanceCreate.mk ravi_id "2024-01-20" Absent)))) = [r]
      ∧ AttendanceRecord.status r = Absent.
Proof.
  destruct (attendance_unique_per_day example_db reachable_example_db)
    as [Hunique Hmarks].
  split; [exact Hunique|].
  apply (Hmarks ravi_id "2024-01-20" 48%N "2024-01-20T09:00:00" 49%N
           "2024-01-20T18:00:00"); by_compute.
Defined.

Lemma create_employee_email_case_missed_witness :
  ∃ db1,
    run (create_employee 1 "2024-03-01T09:00:00"
           (EmployeeCreate.mk "E100" "José Díaz" "josé@example.com" "Sales")) init_db
      = (Return (Employee.mk (str_UUID 1) "E100" "José Díaz" "josé@example.com"
                   "Sales" "2024-03-01T09:00:00"), db1)
    ∧ str_lower "JOSÉ@example.com" = "josé@example.com"
    ∧ lower "JOSÉ@example.com" = "josÉ@example.com"
    ∧ run (create_employee 2 "2024-03-02T09:00:00"
             (EmployeeCreate.mk "E101" "José Díaz" "JOSÉ@example.com" "Sales")) db1
        = (Raise IntegrityError, db1).
Proof.
  set (existing := Employee.mk (str_UUID 1) "E100" "José Díaz" "josé@example.com"
                     "Sales" "2024-03-01T09:00:00").
  exists (mkDB [existing] []).
  split; [vm_compute; reflexivity|]. split; [vm_compute; reflexivity|].
  split; [vm_compute; reflexivity|].
  apply (create_employee_email_case_missed 2 "2024-03-02T09:00:00"
           (EmployeeCreate.mk "E101" "José Díaz" "JOSÉ@example.com" "Sales")
           existing (mkDB [existing] [])).
  - apply (list_elem_of_lookup_2 _ 0). reflexivity.
  - by_compute.
  - vm_compute; reflexivity.
  - by_compute.
Defined.

Lemma create_employee_conflict_witness :
  run (create_employee 3 "2024-02-01T09:00:00"
         (EmployeeCreate.mk "E001" "John Roe" "john@example.com" "Sales")) example_db =
    (Raise (HTTPException 400 "An employee with this Employee ID already exists"),
     example_db)
  ∧ run (create_employee 3 "2024-02-01T09:00:00"
           (EmployeeCreate.mk "E003" "Jane Doe" "JANE.DOE@EXAMPLE.COM" "Sales"))
      example_db =
      (Raise (HTTPException 400 "An employee with this email already exists"),
       example_db).
Proof.
  split.
  - apply (create_employee_conflict 3 "2024-02-01T09:00:00"
             (EmployeeCreate.mk "E001" "John Roe" "john@example.com" "Sales")
             example_db).
    by_compute.
  - apply (create_employee_conflict 3 "2024-02-01T09:00:00"
             (EmployeeCreate.mk "E003" "Jane Doe" "JANE.DOE@EXAMPLE.COM" "Sales")
             example_db); by_compute.
Defined.


Lemma delete_employee_cascade_witness :
  run (delete_employee (str_UUID 3)) example_db =
    (Raise (HTTPException 404 "Employee not found"), example_db)
  ∧ (run (delete_employee jane_id) example_db).1 = Return ()
  ∧ attendance (run (delete_employee jane_id) example_db).2 =
      [AttendanceRecord.mk (str_UUID 17) ravi_id "2024-01-15" Absent
         "2024-01-15T09:31:00"]
  ∧ (run (get_attendance (Some jane_id) None)
       (run (delete_employee jane_id) example_db).2).1 = Return [].
Proof.
  destruct (delete_employee_cascade (str_UUID 3) example_db) as [Hmissing _].
  destruct (delete_employee_cascade jane_id example_db) as [_ Hfound].
  destruct Hmissing as [Hrun _]; [by_compute|].
  destruct Hfound as (Hrun' & _ & Hlist); [by_compute|].
  split; [exact Hrun|]. rewrite Hrun'. cbn [fst snd].
  rewrite (Hlist reachable_example_db). split_and!; vm_compute; reflexivity.
Defined.

Lemma get_attendance_filters_witness :
  ∃ records,
    run (get_attendance None (Some "2024-01-15")) example_db
      = (Return records, example_db)
    ∧ records ≡ₚ
        filter (λ a, filter_matches None (AttendanceRecord.employee_id a)
                     ∧ filter_matches (Some "2024-01-15") (AttendanceRecord.date a))
          (attendance example_db)
    ∧ StronglySorted later_first records.
Proof.
  apply (get_attendance_filters None (Some "2024-01-15") example_db); discriminate.
Defined.

Lemma dashboard_totals_witness :
  ∃ stats rows,
    run (get_dashboard_stats "2024-01-16") example_db = (Return stats, example_db)
    ∧ run get_employees example_db = (Return rows, example_db)
    ∧ DashboardStats.total_present stats
        = sum_list (EmployeeWithAttendance.present_days <$> rows)
    ∧ DashboardStats.total_absent stats
        = sum_list (EmployeeWithAttendance.absent_days <$> rows).
Proof. exact (dashboard_totals "2024-01-16" example_db reachable_example_db). Defined.

Lemma get_employees_summary_witness :
  (run get_employees example_db).1 =
    Return [EmployeeWithAttendance.mk ravi_id "E002" "Ravi Kumar" "ravi@example.com"
              "Operations" "2024-01-11T09:00:00" 0 1;
            EmployeeWithAttendance.mk jane_id "E001" "Jane Doe" "jane.doe@example.com"
              "Engineering" "2024-01-10T09:00:00" 2 0]
  ∧ ∃ created db',
      run (create_employee 3 "2024-02-01T09:00:00"
             (EmployeeCreate.mk "E003" "John Roe" "john@example.com" "Sales"))
        example_db = (Return created, db')
      ∧ run (get_employee (Employee.id created)) db'
          = (Return (with_attendance 0 0 created), db').
Proof.
  destruct (get_employees_summary example_db reachable_example_db)
    as (rows & Hrun & _ & _ & _ & _ & Hcreated).
  split; [vm_compute; reflexivity|].
  eexists _, _. split; [vm_compute; reflexivity|].
  apply (Hcreated 3%N "2024-02-01T09:00:00"
           (EmployeeCreate.mk "E003" "John Roe" "john@example.com" "Sales")).
  vm_compute; reflexivity.
Defined.

Lemma get_employee_agrees_with_list_witness :
  run (get_employee (str_UUID 3)) example_db =
    (Raise (HTTPException 404 "Employee not found"), example_db).
Proof.
  destruct (get_employee_agrees_with_list example_db reachable_example_db)
    as [Hmissing _].
  apply Hmissing. by_compute.
Defined.

Lemma delete_attendance_removes_one_witness :
  run (delete_attendance (str_UUID 4)) example_db =
    (Raise (HTTPException 404 "Attendance record not found"), example_db)
  ∧ attendance (run (delete_attendance (str_UUID 17)) example_db).2 =
      [AttendanceRecord.mk (str_UUID 16) jane_id "2024-01-15" Present
         "2024-01-15T09:30:00";
       AttendanceRecord.mk (str_UUID 18) jane_id "2024-01-16" Present
         "2024-01-16T09:30:00"].
Proof.
  destruct (delete_attendance_removes_one (str_UUID 4) example_db
              reachable_example_db) as [Hmissing _].
  destruct (delete_attendance_removes_one (str_UUID 17) example_db
              reachable_example_db) as [_ Hfound].
  split; [apply Hmissing; by_compute|].
  destruct (Hfound
              [AttendanceRecord.mk (str_UUID 16) jane_id "2024-01-15" Present
                 "2024-01-15T09:30:00"]
              (AttendanceRecord.mk (str_UUID 17) ravi_id "2024-01-15" Absent
                 "2024-01-15T09:31:00")
              [AttendanceRecord.mk (str_UUID 18) jane_id "2024-01-16" Present
                 "2024-01-16T09:30:00"]) as [Hrun _];
    [vm_compute; reflexivity..|].
  by rewrite Hrun.
Defined.

Lemma mark_then_delete_attendance_witness :
  ∃ r db1,
    run (mark_attendance 32 "2024-01-17T09:00:00"
           (AttendanceCreate.mk jane_id "2024-01-17" Present)) example_db
      = (Return r, db1)
    ∧ run (delete_attendance (AttendanceRecord.id r)) db1 = (Return (), example_db).
Proof.
  apply (mark_then_delete_attendance 32 "2024-01-17T09:00:00"
           (AttendanceCreate.mk jane_id "2024-01-17" Present) example_db);
    by_compute.
Defined.

Lemma create_then_delete_employee_witness :
  ∃ created db1,
    run (create_employee 3 "2024-02-01T09:00:00"
           (EmployeeCreate.mk "E003" "John Roe" "john@example.com" "Sales"))
      example_db = (Return created, db1)
    ∧ run (delete_employee (Employee.id created)) db1 = (Return (), example_db).
Proof.
  eexists _, _. split; [vm_compute; reflexivity|].
  apply (create_then_delete_employee 3 "2024-02-01T09:00:00"
           (EmployeeCreate.mk "E003" "John Roe" "john@example.com" "Sales")
           _ example_db _ reachable_example_db).
  vm_compute; reflexivity.
Defined.

Lemma create_employee_succeeds_witness :
  (run (create_employee 3 "2024-02-01T09:00:00"
          (EmployeeCreate.mk "E003" "John Roe" "John@Example.com" "Sales"))
     example_db).1
  = Return (Employee.mk (str_UUID 3) "E003" "John Roe"
              "john@example.com" "Sales" "2024-02-01T09:00:00").
Proof.
  destruct (create_employee_succeeds 3 "2024-02-01T09:00:00"
              (EmployeeCreate.mk "E003" "John Roe" "John@Example.com" "Sales")
              example_db) as [Hrun _]; [by_compute..|].
  rewrite Hrun. vm_compute; reflexivity.
Defined.

Lemma create_employee_twice_witness :
  ∃ created db1,
    run (create_employee 3 "2024-02-01T09:00:00"
           (EmployeeCreate.mk "E003" "John Roe" "john@example.com" "Sales"))
      example_db = (Return created, db1)
    ∧ run (create_employee 4 "2024-02-02T09:00:00"
             (EmployeeCreate.mk "E003" "J. Roe" "roe@example.com" "Support")) db1 =
        (Raise (HTTPException 400 "An employee with this Employee ID already exists"),
         db1)
    ∧ run (create_employee 4 "2024-02-02T09:00:00"
             (EmployeeCreate.mk "E004" "J. Roe" "JOHN@example.com" "Support")) db1 =
        (Raise (HTTPException 400 "An employee with this email already exists"), db1).
Proof.
  set (created := Employee.mk (str_UUID 3) "E003" "John Roe" "john@example.com"
                    "Sales" "2024-02-01T09:00:00").
  set (db1 := mkDB (employees example_db ++ [created]) (attendance example_db)).
  assert (run (create_employee 3 "2024-02-01T09:00:00"
                 (EmployeeCreate.mk "E003" "John Roe" "john@example.com" "Sales"))
            example_db = (Return created, db1)) as Hcreated
    by (vm_compute; reflexivity).
  exists created, db1. split; [exact Hcreated|].
  destruct (create_employee_twice _ _ _ _ _ _ 4 "2024-02-02T09:00:00"
              (EmployeeCreate.mk "E003" "J. Roe" "roe@example.com" "Support")
              Hcreated) as [Hid _].
  destruct (create_employee_twice _ _ _ _ _ _ 4 "2024-02-02T09:00:00"
              (EmployeeCreate.mk "E004" "J. Roe" "JOHN@example.com" "Support")
              Hcreated) as [_ Hemail].
  split; [apply Hid; reflexivity|].
  apply Hemail; [by_compute|vm_compute; reflexivity].
Defined.

Lemma delete_employee_then_not_found_witness :
  ∃ db1,
    run (delete_employee jane_id) example_db = (Return (), db1)
    ∧ run (get_employee jane_id) db1 =
        (Raise (HTTPException 404 "Employee not found"), db1).
Proof.
  eexists. split; [vm_compute; reflexivity|].
  apply (delete_employee_then_not_found jane_id example_db).
  vm_compute; reflexivity.
Defined.

Lemma mark_then_get_attendance_witness :
  ∃ r db1,
    run (mark_attendance 32 "2024-01-15T17:00:00"
           (AttendanceCreate.mk jane_id "2024-01-15" Absent)) example_db
      = (Return r, db1)
    ∧ run (get_attendance (Some jane_id) (Some "2024-01-15")) db1 = (Return [r], db1).
Proof.
  apply (mark_then_get_attendance 32 "2024-01-15T17:00:00"
           (AttendanceCreate.mk jane_id "2024-01-15" Absent) example_db
           reachable_example_db); [by_compute|discriminate|left; by_compute].
Defined.

Lemma get_attendance_both_filters_witness :
  ∃ records,
    run (get_attendance (Some jane_id) (Some "2024-01-15")) example_db
      = (Return records, example_db)
    ∧ length records ≤ 1.
Proof.
  apply (get_attendance_both_filters jane_id "2024-01-15" example_db
           reachable_example_db); [apply str_UUID_nonempty|discriminate].
Defined.


Lemma dashboard_counters_witness :
  ∃ stats rows today_records all_records,
    run (get_dashboard_stats "2024-01-15") example_db = (Return stats, example_db)
    ∧ run get_employees example_db = (Return rows, example_db)
    ∧ run (get_attendance None (Some "2024-01-15")) example_db
        = (Return today_records, example_db)
    ∧ run (get_attendance None None) example_db = (Return all_records, example_db)
    ∧ DashboardStats.total_employees stats = length rows
    ∧ DashboardStats.present_today stats + DashboardStats.absent_today stats
        = length today_records
    ∧ DashboardStats.total_present stats + DashboardStats.total_absent stats
        = length all_records
    ∧ DashboardStats.present_today stats ≤ DashboardStats.total_present stats
    ∧ DashboardStats.absent_today stats ≤ DashboardStats.total_absent stats.
Proof.
  apply (dashboard_counters "2024-01-15" example_db reachable_example_db).
  discriminate.
Defined.

Lemma EmployeeCreate_validate_accepted_witness :
  EmployeeCreate_validate " E001" "  Jane Doe  " "Jane.Doe@Example.com"
    "Engineering "
    = Some (EmployeeCreate.mk "E001" "Jane Doe" "Jane.Doe@example.com" "Engineering")
  ∧ validate_email "Jane.Doe@Example.com" = Some "Jane.Doe@example.com"
  ∧ not_empty "Jane Doe" = Some "Jane Doe".
Proof.
  assert (EmployeeCreate_validate " E001" "  Jane Doe  " "Jane.Doe@Example.com"
            "Engineering "
          = Some (EmployeeCreate.mk "E001" "Jane Doe" "Jane.Doe@example.com"
                    "Engineering")) as Hvalid by (vm_compute; reflexivity).
  destruct (EmployeeCreate_validate_accepted _ _ _ _ _ Hvalid) as [Hemail Hfields].
  split; [exact Hvalid|]. split; [exact Hemail|].
  apply Forall_cons_1 in Hfields as [_ Hfields].
  apply Forall_cons_1 in Hfields as [Hname _].
  apply Hname.
Defined.

Lemma failed_request_writes_nothing_witness :
  (run (create_employee 1 "2024-02-01T09:00:00"
          (EmployeeCreate.mk "E003" "John Roe" "john@example.com" "Sales"))
     example_db).2 = example_db.
Proof.
  destruct (failed_request_writes_nothing example_db IntegrityError
              (run (create_employee 1 "2024-02-01T09:00:00"
                      (EmployeeCreate.mk "E003" "John Roe" "john@example.com" "Sales"))
                 example_db).2) as [Hcreate _].
  apply (Hcreate 1%N "2024-02-01T09:00:00"
           (EmployeeCreate.mk "E003" "John Roe" "john@example.com" "Sales")).
  vm_compute; reflexivity.
Defined.

Lemma integrity_error_only_on_constraint_witness :
  str_UUID 1 ∈ Employee.id <$> employees example_db
  ∨ (str_lower "john@example.com" ∈ Employee.email <$> employees example_db
     ∧ lower "john@example.com"
         ∉ (λ e, lower (Employee.email e)) <$> employees example_db).
Proof.
  destruct (integrity_error_only_on_constraint 1 "2024-02-01T09:00:00" example_db
              example_db) as [Hcreate _].
  apply (Hcreate (EmployeeCreate.mk "E003" "John Roe" "john@example.com" "Sales")).
  vm_compute; reflexivity.
Defined.

Lemma create_then_list_witness :
  ∃ created db1 rows rows1,
    run (create_employee 3 "2024-02-01T09:00:00"
           (EmployeeCreate.mk "E003" "John Roe" "john@example.com" "Sales"))
      example_db = (Return created, db1)
    ∧ run get_employees example_db = (Return rows, example_db)
    ∧ run get_employees db1 = (Return rows1, db1)
    ∧ rows1 ≡ₚ with_attendance 0 0 created :: rows.
Proof.
  set (created := Employee.mk (str_UUID 3) "E003" "John Roe" "john@example.com"
                    "Sales" "2024-02-01T09:00:00").
  set (db1 := mkDB (employees example_db ++ [created]) (attendance example_db)).
  assert (run (create_employee 3 "2024-02-01T09:00:00"
                 (EmployeeCreate.mk "E003" "John Roe" "john@example.com" "Sales"))
            example_db = (Return created, db1)) as Hcreated
    by (vm_compute; reflexivity).
  destruct (create_then_list _ _ _ _ _ _ reachable_example_db Hcreated)
    as (rows & rows1 & Hrows & Hrows1 & Hperm).
  exists created, db1, rows, rows1. split_and!; assumption.
Defined.

Lemma mark_new_day_counts_witness :
  ∃ r db1,
    run (mark_attendance 32 "2024-01-17T09:00:00"
           (AttendanceCreate.mk jane_id "2024-01-17" Absent)) example_db
      = (Return r, db1)
    ∧ run (get_employee jane_id) db1 =
        (Return (EmployeeWithAttendance.mk jane_id "E001" "Jane Doe"
                   "jane.doe@example.com" "Engineering" "2024-01-10T09:00:00" 2 1),
         db1).
Proof.
  destruct (mark_new_day_counts 32 "2024-01-17T09:00:00" "2024-01-17" Absent
              (Employee.mk jane_id "E001" "Jane Doe" "jane.doe@example.com"
                 "Engineering" "2024-01-10T09:00:00") example_db
              reachable_example_db) as (r & db1 & Hrun & Hget);
    [apply (list_elem_of_lookup_2 _ 0); vm_compute; reflexivity|by_compute..|].
  exists r, db1. split; [exact Hrun|].
  cbn [Employee.id] in Hget. rewrite Hget. vm_compute; reflexivity.
Defined.
